(** * MeetPointTurs: the meeting-time banner, its time formatter and its bootstrap

    A shallow embedding of [src/components/MeetingBanner.tsx] and of the entry
    module that mounts it, followed by the properties of the banner that the
    specification states.

    Conventions of the embedding.
    - A JavaScript string is a [string] holding its UTF-8 bytes; every string
      the component handles is taken to be well-formed Unicode.
    - An optional property ([x?: T]) is an [option T]; [None] is [undefined].
    - The host platform ([Intl.DateTimeFormat], [Date.parse]) is not part of
      the repository: it is a record [Host.Platform] every definition that
      reaches it takes as a parameter.
    - Code that can throw returns a [Result]; [try]/[catch] is [try_catch]. *)

From Stdlib Require Import String Ascii List ZArith NArith QArith Qabs Bool.
Import ListNotations.
Open Scope string_scope.

(** ** JavaScript primitives the source relies on *)

Module JS.

(** Exceptions the modelled code can meet. *)
Inductive exn : Type :=
| RangeError (msg : string)
| Error (msg : string).

Definition Result (A : Type) : Type := (exn + A)%type.

Definition ret {A} (a : A) : Result A := inr a.
Definition throw {A} (e : exn) : Result A := inl e.
Definition bind {A B} (m : Result A) (k : A -> Result B) : Result B :=
  match m with
  | inl e => inl e
  | inr a => k a
  end.
Definition try_catch {A} (body : Result A) (handler : exn -> Result A) : Result A :=
  match body with
  | inl e => handler e
  | inr a => inr a
  end.

(** A number: a double is NaN, an infinity, or a finite rational. *)
Inductive number : Type :=
| NaN
| Infinity (negative : bool)
| Finite (q : Q).

(** ToBoolean on the types the component tests. *)
Definition truthy_string (s : string) : bool :=
  match s with
  | EmptyString => false
  | String _ _ => true
  end.

Definition truthy_number (n : number) : bool :=
  match n with
  | NaN => false
  | Infinity _ => true
  | Finite q => negb (Qeq_bool q 0)
  end.

Definition truthy_opt (o : option string) : bool :=
  match o with
  | Some s => truthy_string s
  | None => false
  end.

(** [a || d] where [a] is an optional string and [d] a string. *)
Definition or_else (a : option string) (d : string) : string :=
  match a with
  | Some s => if truthy_string s then s else d
  | None => d
  end.

(** [a || undefined]. *)
Definition or_undefined (a : option string) : option string :=
  match a with
  | Some s => if truthy_string s then Some s else None
  | None => None
  end.

(** [String.prototype.toLowerCase], on the ASCII letters. Bytes of other
    characters are kept: the only ASCII letters a character outside ASCII
    lowers to are [k] and [i], so the test of the prefix "es" in the
    component sees what JavaScript sees. *)
Definition lower_ascii (c : ascii) : ascii :=
  let n := N_of_ascii c in
  if ((65 <=? n) && (n <=? 90))%N then ascii_of_N (n + 32) else c.

Fixpoint toLowerCase (s : string) : string :=
  match s with
  | EmptyString => EmptyString
  | String c t => String (lower_ascii c) (toLowerCase t)
  end.

Definition startsWith (s pre : string) : bool := String.prefix pre s.

(** [String.prototype.includes]. *)
Fixpoint includes (s sub : string) : bool :=
  String.prefix sub s ||
  match s with
  | EmptyString => false
  | String _ t => includes t sub
  end.

(** [Array.prototype.join]. *)
Definition join (sep : string) (parts : list string) : string :=
  String.concat sep parts.

(** [encodeURIComponent]: the unreserved marks, digits and letters stay,
    every other byte of the UTF-8 encoding becomes [%XX] in upper-case
    hexadecimal. (On a lone surrogate JavaScript throws [URIError]; a
    well-formed string has none.) *)
Definition is_unescaped (c : ascii) : bool :=
  let n := N_of_ascii c in
  ((65 <=? n) && (n <=? 90) || (97 <=? n) && (n <=? 122) || (48 <=? n) && (n <=? 57))%N
  || existsb (Ascii.eqb c) (list_ascii_of_string "-_.!~*'()").

Definition hex_digit (n : N) : ascii :=
  if (n <? 10)%N then ascii_of_N (48 + n) else ascii_of_N (55 + n).

Definition percent_encode (c : ascii) : string :=
  let n := N_of_ascii c in
  String "%" (String (hex_digit (n / 16)) (String (hex_digit (n mod 16)) EmptyString)).

Fixpoint encodeURIComponent (s : string) : string :=
  match s with
  | EmptyString => EmptyString
  | String c t =>
      (if is_unescaped c then String c EmptyString else percent_encode c)
        ++ encodeURIComponent t
  end.

(** The characters an encoded component is made of: the unescaped ones
    and the percent sign. *)
Definition url_safe (c : ascii) : bool := is_unescaped c || Ascii.eqb c "%".

Fixpoint all_chars (p : ascii -> bool) (s : string) : bool :=
  match s with
  | EmptyString => true
  | String c t => p c && all_chars p t
  end.

End JS.

(** ** The host platform: dates and [Intl] *)

Module Host.
Import JS.

(** What the browser supplies. A time value is a number of milliseconds
    since the epoch; [None] is the NaN of an invalid date. *)
Record Platform : Type := {
  (** [Date.parse] *)
  Date_parse : string -> option Z;
  (** whether [Intl.DateTimeFormat] accepts the language tag *)
  valid_locale : string -> bool;
  (** whether [Intl.DateTimeFormat] accepts the time zone name *)
  valid_timeZone : string -> bool;
  (** the text [Intl.DateTimeFormat(locale, {hour: 'numeric',
      minute: '2-digit', hour12, timeZone}).format] gives a valid time *)
  format_hour_minute : option string -> option bool -> option string -> Z -> string
}.

(** A [Date] object is its time value. *)
Record Date : Type := { time_value : option Z }.

(** The value of type [Date | string | number] a caller passes. *)
Inductive DateLike : Type :=
| OfDate (d : Date)
| OfString (s : string)
| OfNumber (n : number).

Definition truthy_datelike (v : DateLike) : bool :=
  match v with
  | OfDate _ => true
  | OfString s => truthy_string s
  | OfNumber n => truthy_number n
  end.

(** TimeClip: a finite number of at most 8.64e15 in magnitude, truncated
    towards zero. *)
Definition time_clip (n : number) : option Z :=
  match n with
  | NaN | Infinity _ => None
  | Finite q =>
      let t := Z.quot (Qnum q) (Zpos (Qden q)) in
      if Qle_bool (Qabs q) (8640000000000000 # 1) then Some t else None
  end.

(** The date the formatter works on: the [Date] given, or [new Date(value)]
    of a string (parsed) or a number (clipped). *)
Definition new_Date (P : Platform) (v : DateLike) : Date :=
  match v with
  | OfDate d => d
  | OfString s => {| time_value := Date_parse P s |}
  | OfNumber n => {| time_value := time_clip n |}
  end.

(** A constructed formatter remembers its resolved options. *)
Record DateTimeFormat : Type := {
  dtf_locale : option string;
  dtf_hour12 : option bool;
  dtf_timeZone : option string
}.

(** [new Intl.DateTimeFormat(locales, {hour, minute, hour12, timeZone})]:
    a RangeError on a language tag or a time zone the platform rejects. *)
Definition new_DateTimeFormat (P : Platform)
    (locales : option string) (hour12 : option bool) (timeZone : option string)
  : Result DateTimeFormat :=
  let ok_locale := match locales with Some l => valid_locale P l | None => true end in
  let ok_zone := match timeZone with Some z => valid_timeZone P z | None => true end in
  if negb ok_locale then throw (RangeError "Incorrect locale information provided")
  else if negb ok_zone then throw (RangeError "Invalid time zone specified")
  else ret {| dtf_locale := locales; dtf_hour12 := hour12; dtf_timeZone := timeZone |}.

(** [formatter.format(date)]: a RangeError on an invalid date. *)
Definition format (P : Platform) (f : DateTimeFormat) (d : Date) : Result string :=
  match time_value d with
  | None => throw (RangeError "Invalid time value")
  | Some t => ret (format_hour_minute P (dtf_locale f) (dtf_hour12 f) (dtf_timeZone f) t)
  end.

End Host.

(** ** The rendered output *)

Module VDom.

(** The two click handlers of the banner. *)
Inductive Handler : Type :=
| ToggleLanguage
| StartRoute.

(** A rendered tree: text, or an element with its attributes, its click
    handler if it has one, and its children. An attribute whose value is
    [undefined] is left out, as React leaves it out. *)
#[warnings="-register-all"] Inductive VNode : Type :=
| Text (s : string)
| Elem (tag : string) (attrs : list (string * string))
       (onClick : option Handler) (children : list VNode).

Definition el (tag : string) (attrs : list (string * string)) (children : list VNode) : VNode :=
  Elem tag attrs None children.

(** [{cond && <x/>}]: nothing is rendered when [cond] is falsy. *)
Definition when (cond : bool) (n : VNode) : list VNode :=
  if cond then [n] else [].

Definition children_of (n : VNode) : list VNode :=
  match n with
  | Text _ => []
  | Elem _ _ _ cs => cs
  end.

Fixpoint lookup_attr (name : string) (attrs : list (string * string)) : option string :=
  match attrs with
  | [] => None
  | (k, v) :: rest => if String.eqb name k then Some v else lookup_attr name rest
  end.

Definition attr (name : string) (n : VNode) : option string :=
  match n with
  | Text _ => None
  | Elem _ attrs _ _ => lookup_attr name attrs
  end.

(** [Node.textContent]. *)
Fixpoint textContent (n : VNode) : string :=
  match n with
  | Text s => s
  | Elem _ _ _ cs => String.concat "" (map textContent cs)
  end.

(** [querySelectorAll(tag)], the node itself included, in document order. *)
Fixpoint select (t : string) (n : VNode) : list VNode :=
  match n with
  | Text _ => []
  | Elem t' _ _ cs =>
      ((if String.eqb t t' then [n] else []) ++ flat_map (select t) cs)%list
  end.

End VDom.

(** ** [src/components/MeetingBanner.tsx] *)

Module MeetingBanner.
Import JS Host VDom.

Inductive Palette : Type := teal | emerald | green.

Record PaletteStyle : Type := {
  accentText : string;
  accentBg : string;
  accentRing : string;
  gradient : string;
  dot : string
}.

Definition paletteStyles (p : Palette) : PaletteStyle :=
  match p with
  | teal =>
      {| accentText := "text-teal-600";
         accentBg := "bg-teal-50";
         accentRing := "ring-teal-100";
         gradient := "bg-gradient-to-r from-emerald-400 via-teal-400 to-emerald-500";
         dot := "bg-teal-400/70" |}
  | emerald =>
      {| accentText := "text-emerald-600";
         accentBg := "bg-emerald-50";
         accentRing := "ring-emerald-100";
         gradient := "bg-gradient-to-r from-teal-400 via-emerald-400 to-teal-500";
         dot := "bg-emerald-400/70" |}
  | green =>
      {| accentText := "text-green-600";
         accentBg := "bg-green-50";
         accentRing := "ring-green-100";
         gradient := "bg-gradient-to-r from-lime-400 via-green-400 to-emerald-500";
         dot := "bg-green-400/70" |}
  end.

Record MeetingBannerProps : Type := {
  meetingTimeText : option string;
  meetingDate : option DateLike;
  timeZone : option string;
  locale : option string;
  hour12 : option bool;
  locationLabel : option string;
  palette : option Palette;
  logoSrc : option string;
  brandName : option string;
  titleText : option string;
  policyLines : option (list string);
  className : option string;
  locationUrl : option string;
  locationCtaLabel : option string;
  openInNewTab : option bool;
  showLanguageToggle : option bool;
  googleMapsApiKey : option string;
  origin : option string;
  destination : option string;
  showMap : option bool
}.

(** The configuration with every property left out. *)
Definition no_props : MeetingBannerProps :=
  {| meetingTimeText := None; meetingDate := None; timeZone := None;
     locale := None; hour12 := None; locationLabel := None; palette := None;
     logoSrc := None; brandName := None; titleText := None;
     policyLines := None; className := None; locationUrl := None;
     locationCtaLabel := None; openInNewTab := None;
     showLanguageToggle := None; googleMapsApiKey := None; origin := None;
     destination := None; showMap := None |}.

(** A configuration with one property changed. *)
Definition set_meetingTimeText (v : option string) (p : MeetingBannerProps) : MeetingBannerProps :=
  {| meetingTimeText := v; meetingDate := meetingDate p; timeZone := timeZone p;
     locale := locale p; hour12 := hour12 p; locationLabel := locationLabel p;
     palette := palette p; logoSrc := logoSrc p; brandName := brandName p;
     titleText := titleText p; policyLines := policyLines p; className := className p;
     locationUrl := locationUrl p; locationCtaLabel := locationCtaLabel p;
     openInNewTab := openInNewTab p; showLanguageToggle := showLanguageToggle p;
     googleMapsApiKey := googleMapsApiKey p; origin := origin p;
     destination := destination p; showMap := showMap p |}.

Definition set_meetingDate (v : option DateLike) (p : MeetingBannerProps) : MeetingBannerProps :=
  {| meetingTimeText := meetingTimeText p; meetingDate := v; timeZone := timeZone p;
     locale := locale p; hour12 := hour12 p; locationLabel := locationLabel p;
     palette := palette p; logoSrc := logoSrc p; brandName := brandName p;
     titleText := titleText p; policyLines := policyLines p; className := className p;
     locationUrl := locationUrl p; locationCtaLabel := locationCtaLabel p;
     openInNewTab := openInNewTab p; showLanguageToggle := showLanguageToggle p;
     googleMapsApiKey := googleMapsApiKey p; origin := origin p;
     destination := destination p; showMap := showMap p |}.

Definition set_timeZone (v : option string) (p : MeetingBannerProps) : MeetingBannerProps :=
  {| meetingTimeText := meetingTimeText p; meetingDate := meetingDate p; timeZone := v;
     locale := locale p; hour12 := hour12 p; locationLabel := locationLabel p;
     palette := palette p; logoSrc := logoSrc p; brandName := brandName p;
     titleText := titleText p; policyLines := policyLines p; className := className p;
     locationUrl := locationUrl p; locationCtaLabel := locationCtaLabel p;
     openInNewTab := openInNewTab p; showLanguageToggle := showLanguageToggle p;
     googleMapsApiKey := googleMapsApiKey p; origin := origin p;
     destination := destination p; showMap := showMap p |}.

Definition set_locale (v : option string) (p : MeetingBannerProps) : MeetingBannerProps :=
  {| meetingTimeText := meetingTimeText p; meetingDate := meetingDate p; timeZone := timeZone p;
     locale := v; hour12 := hour12 p; locationLabel := locationLabel p;
     palette := palette p; logoSrc := logoSrc p; brandName := brandName p;
     titleText := titleText p; policyLines := policyLines p; className := className p;
     locationUrl := locationUrl p; locationCtaLabel := locationCtaLabel p;
     openInNewTab := openInNewTab p; showLanguageToggle := showLanguageToggle p;
     googleMapsApiKey := googleMapsApiKey p; origin := origin p;
     destination := destination p; showMap := showMap p |}.

Definition set_policyLines (v : option (list string)) (p : MeetingBannerProps) : MeetingBannerProps :=
  {| meetingTimeText := meetingTimeText p; meetingDate := meetingDate p; timeZone := timeZone p;
     locale := locale p; hour12 := hour12 p; locationLabel := locationLabel p;
     palette := palette p; logoSrc := logoSrc p; brandName := brandName p;
     titleText := titleText p; policyLines := v; className := className p;
     locationUrl := locationUrl p; locationCtaLabel := locationCtaLabel p;
     openInNewTab := openInNewTab p; showLanguageToggle := showLanguageToggle p;
     googleMapsApiKey := googleMapsApiKey p; origin := origin p;
     destination := destination p; showMap := showMap p |}.

Definition set_googleMapsApiKey (v : option string) (p : MeetingBannerProps) : MeetingBannerProps :=
  {| meetingTimeText := meetingTimeText p; meetingDate := meetingDate p; timeZone := timeZone p;
     locale := locale p; hour12 := hour12 p; locationLabel := locationLabel p;
     palette := palette p; logoSrc := logoSrc p; brandName := brandName p;
     titleText := titleText p; policyLines := policyLines p; className := className p;
     locationUrl := locationUrl p; locationCtaLabel := locationCtaLabel p;
     openInNewTab := openInNewTab p; showLanguageToggle := showLanguageToggle p;
     googleMapsApiKey := v; origin := origin p;
     destination := destination p; showMap := showMap p |}.

Definition set_showMap (v : option bool) (p : MeetingBannerProps) : MeetingBannerProps :=
  {| meetingTimeText := meetingTimeText p; meetingDate := meetingDate p; timeZone := timeZone p;
     locale := locale p; hour12 := hour12 p; locationLabel := locationLabel p;
     palette := palette p; logoSrc := logoSrc p; brandName := brandName p;
     titleText := titleText p; policyLines := policyLines p; className := className p;
     locationUrl := locationUrl p; locationCtaLabel := locationCtaLabel p;
     openInNewTab := openInNewTab p; showLanguageToggle := showLanguageToggle p;
     googleMapsApiKey := googleMapsApiKey p; origin := origin p;
     destination := destination p; showMap := v |}.

(** The configuration of the example scenario of the specification:
    [{meetingTimeText: "5:30 PM", locale: "es-ES"}]. *)
Definition scenario_props : MeetingBannerProps :=
  set_meetingTimeText (Some "5:30 PM") (set_locale (Some "es-ES") no_props).

(** A destructuring default: [x = d] takes [d] when [x] is [undefined]. *)
Definition dflt {A} (d : A) (x : option A) : A :=
  match x with
  | Some a => a
  | None => d
  end.

(** The argument object of [formatMeetingTime]. *)
Record FormatOpts : Type := {
  fo_meetingTimeText : option string;
  fo_meetingDate : option DateLike;
  fo_locale : option string;
  fo_timeZone : option string;
  fo_hour12 : option bool
}.

Definition fallback_time : string := "5:30 PM".

Definition formatMeetingTime (P : Platform) (opts : FormatOpts) : Result string :=
  match fo_meetingTimeText opts with
  (* if (meetingTimeText) return meetingTimeText; *)
  | Some (String c t) => ret (String c t)
  | _ =>
      match fo_meetingDate opts with
      (* if (!meetingDate) return '5:30 PM'; *)
      | None => ret fallback_time
      | Some meetingDate =>
          if negb (truthy_datelike meetingDate) then ret fallback_time
          else
            (* meetingDate instanceof Date ? meetingDate : new Date(meetingDate) *)
            let date := new_Date P meetingDate in
            try_catch
              (bind (new_DateTimeFormat P (or_undefined (fo_locale opts))
                       (fo_hour12 opts) (fo_timeZone opts))
                    (fun formatter => format P formatter date))
              (fun _ => ret fallback_time)
      end
  end.

(** *** Component state and what is derived from it *)

Inductive Lang : Type := es | en.

Definition Lang_eqb (a b : Lang) : bool :=
  match a, b with
  | es, es | en, en => true
  | _, _ => false
  end.

Definition lang_code (l : Lang) : string :=
  match l with
  | es => "es"
  | en => "en"
  end.

(** The initializer given to [useState]. *)
Definition initial_lang (props : MeetingBannerProps) : Lang :=
  let l := toLowerCase (or_else (locale props) "") in
  if startsWith l "es" then es else en.

(** The updater the toggle button gives to [setLang]. *)
Definition toggle (prev : Lang) : Lang :=
  if Lang_eqb prev es then en else es.

Definition effectiveLocale (props : MeetingBannerProps) (lang : Lang) : string :=
  if Lang_eqb lang es then "es-ES" else or_else (locale props) "en-US".

Definition timeString (P : Platform) (props : MeetingBannerProps) (lang : Lang)
  : Result string :=
  formatMeetingTime P
    {| fo_meetingTimeText := meetingTimeText props;
       fo_meetingDate := meetingDate props;
       fo_locale := Some (effectiveLocale props lang);
       fo_timeZone := timeZone props;
       fo_hour12 := hour12 props |}.

Definition isEs (lang : Lang) : bool := Lang_eqb lang es.

Definition title (props : MeetingBannerProps) (lang : Lang) : string :=
  or_else (titleText props) (if isEs lang then "Hora de encuentro" else "Meeting Time").

Definition ctaLabel (props : MeetingBannerProps) (lang : Lang) : string :=
  or_else (locationCtaLabel props) (if isEs lang then "Ver ubicación" else "View location").

(** The two memoised defaults; each depends on the time string alone. *)
Definition defaultPolicyEn (timeString : string) : list string :=
  [ "Please arrive at the designated meeting point by " ++ timeString ++ ".";
    "Guests who do not arrive on time will forfeit the tour and all associated rights.";
    "Late arrivals are not eligible for refunds or claims." ].

Definition defaultPolicyEs (timeString : string) : list string :=
  [ "Por favor, llegue al punto de encuentro a las " ++ timeString ++ ".";
    "Los clientes que no lleguen a tiempo perderán el tour y los derechos asociados.";
    "Los retrasos no son reembolsables ni reclamables." ].

Definition policy (props : MeetingBannerProps) (lang : Lang) (timeString : string)
  : list string :=
  match policyLines props with
  | Some (l :: ls) => l :: ls
  | _ => if isEs lang then defaultPolicyEs timeString else defaultPolicyEn timeString
  end.

(** *** The route URLs *)

Definition default_origin : string :=
  "Corcovado Hiking Tours, Puerto Jiménez, Puntarenas, Costa Rica".
Definition default_destination : string :=
  "Muelle Público, Puerto Jiménez, Puntarenas, Costa Rica".

(** [src] of the embedded frame (line 293). *)
Definition embed_url (key origin destination : string) : string :=
  "https://www.google.com/maps/embed/v1/directions?key=" ++ encodeURIComponent key
    ++ "&origin=" ++ encodeURIComponent origin
    ++ "&destination=" ++ encodeURIComponent destination ++ "&mode=walking".

(** [href] of the route link (line 302). *)
Definition route_url (origin destination : string) : string :=
  "https://www.google.com/maps/dir/?api=1&origin=" ++ encodeURIComponent origin
    ++ "&destination=" ++ encodeURIComponent destination ++ "&travelmode=walking".

(** The link built from the position of the client (line 333); the
    coordinates are the texts the template literal gives the two numbers. *)
Definition position_url (latitude longitude destination : string) : string :=
  "https://www.google.com/maps/dir/?api=1&origin=" ++ latitude ++ "," ++ longitude
    ++ "&destination=" ++ encodeURIComponent destination ++ "&travelmode=walking".

(** The link built when no position is to be had (lines 337 and 342). *)
Definition fallback_url (destination : string) : string :=
  "https://www.google.com/maps/dir/?api=1&origin=Current+Location&destination="
    ++ encodeURIComponent destination ++ "&travelmode=walking".

(** *** The markup *)

Definition brand_block (props : MeetingBannerProps) : list VNode :=
  when (truthy_opt (logoSrc props) || truthy_opt (brandName props))
    (el "div" [("className", "mb-4 flex items-center gap-3")]
       (when (truthy_opt (logoSrc props))
          (el "img" [("src", or_else (logoSrc props) "");
                     ("alt", or_else (brandName props) "Brand logo");
                     ("className", "h-8 w-8 rounded-md object-cover")] [])
        ++ when (truthy_opt (brandName props))
          (el "span" [("className", "text-sm font-semibold tracking-wide text-neutral-700")]
             [Text (or_else (brandName props) "")])))%list.

Definition location_block (styles : PaletteStyle) (locationLabel : string) : list VNode :=
  when (truthy_string locationLabel)
    (el "div" [("className", "flex items-center gap-2 text-sm font-medium text-neutral-600")]
       [ el "FiMapPin" [("className", join " " ["h-4 w-4"; accentText styles]);
                        ("aria-hidden", "true")] [];
         el "span" [] [Text locationLabel] ]).

(** The main heading (lines 259 to 261). *)
Definition heading (styles : PaletteStyle) (title timeString : string) : VNode :=
  el "h1" [("className", "text-4xl sm:text-5xl md:text-6xl font-semibold tracking-tight")]
    [ Text title; Text ": ";
      el "span" [("className", accentText styles)] [Text timeString] ].

Definition primary_block (styles : PaletteStyle) (title timeString : string) : VNode :=
  el "div" [("className", "mt-6 sm:mt-8 flex items-center gap-3")]
    [ el "div" [("className",
                 join " " ["flex h-12 w-12 items-center justify-center rounded-xl";
                           accentBg styles; "ring-1"; accentRing styles])]
        [ el "FiClock" [("className", join " " ["h-6 w-6"; accentText styles]);
                        ("aria-hidden", "true")] [] ];
      heading styles title timeString ].

(** The paragraph of the policy, a [span] per line (lines 268 to 274). *)
Definition policy_paragraph (policy : list string) : VNode :=
  el "p" [("className", "text-base sm:text-lg leading-relaxed text-neutral-700")]
    (map (fun line => el "span" [("className", "block")] [Text line]) policy).

Definition policy_block (styles : PaletteStyle) (policy : list string) : VNode :=
  el "div" [("className", "mt-6 sm:mt-8")]
    [ el "div" [("className", "flex items-start gap-3")]
        [ el "FiAlertCircle" [("className", join " " ["mt-1 h-5 w-5"; accentText styles]);
                              ("aria-hidden", "true")] [];
          policy_paragraph policy ];
      el "div" [("className", "mt-6 flex items-center gap-2 text-sm text-neutral-500")]
        [ el "span" [("className", join " " ["inline-block h-2 w-2 rounded-full"; dot styles])] [];
          el "span" [] [Text "Thank you for your punctuality and cooperation."] ] ].

Definition cta_className (styles : PaletteStyle) : string :=
  join " " ["inline-flex items-center gap-2 rounded-md px-3 py-2"; accentBg styles;
            "text-sm font-medium"; "ring-1"; accentRing styles;
            "hover:bg-black/5 transition-colors"].

(** The embedded frame (lines 288 to 294). *)
Definition route_frame (key origin destination : string) : VNode :=
  el "iframe" [("title", "Route map");
               ("loading", "lazy");
               ("referrerPolicy", "no-referrer-when-downgrade");
               ("className", "absolute inset-0 h-full w-full");
               ("src", embed_url key origin destination)] [].

(** The route link (lines 301 to 315). *)
Definition route_link (styles : PaletteStyle) (lang : Lang)
    (origin destination : string) (openInNewTab : bool) : VNode :=
  el "a" ([("href", route_url origin destination)]
          ++ (if openInNewTab
              then [("target", "_blank"); ("rel", "noopener noreferrer")]
              else [])
          ++ [("className", cta_className styles)])%list
    [ Text (if isEs lang
            then "Ver ruta desde Corcovado Hiking Tours en Google Maps"
            else "View route from Corcovado Hiking Tours in Google Maps") ].

Definition map_block (styles : PaletteStyle) (lang : Lang)
    (googleMapsApiKey : option string) (origin destination : string)
    (openInNewTab : bool) : VNode :=
  el "div" [("className", "mt-8")]
    [ if truthy_opt googleMapsApiKey then
        el "div" [("className",
                   "relative w-full overflow-hidden rounded-xl border border-neutral-200 shadow-sm");
                  ("style.aspectRatio", "16/9")]
          [ route_frame (or_else googleMapsApiKey "") origin destination ]
      else
        el "div" [("className",
                   "flex items-center justify-between gap-4 rounded-xl border border-neutral-200 bg-white p-4")]
          [ el "div" [("className", "text-sm text-neutral-700")]
              [ Text (if isEs lang then "Ver ruta en Google Maps" else "View route in Google Maps") ];
            route_link styles lang origin destination openInNewTab ] ].

Definition client_route_block (styles : PaletteStyle) (lang : Lang) : VNode :=
  el "div" [("className",
             "mt-4 flex items-center justify-between gap-4 rounded-xl border border-neutral-200 bg-white p-4")]
    [ el "div" [("className", "text-sm text-neutral-700")]
        [ Text (if isEs lang then "Ruta desde su ubicación" else "Route from your location") ];
      Elem "button" [("type", "button"); ("className", cta_className styles)]
        (Some StartRoute)
        [ Text (if isEs lang then "Iniciar ruta" else "Start route") ] ].

Definition toggle_block (styles : PaletteStyle) (lang : Lang) : VNode :=
  el "div" [("className", "fixed bottom-4 right-4")]
    [ Elem "button"
        [("type", "button");
         ("className",
          join " " ["inline-flex items-center gap-2 rounded-full px-4 py-2 shadow-lg";
                    "bg-white border border-neutral-200 text-neutral-800";
                    "hover:bg-neutral-50 focus:outline-none focus:ring-2";
                    accentRing styles; "transition-colors"]);
         ("aria-label", if isEs lang then "Cambiar a inglés" else "Switch to Spanish")]
        (Some ToggleLanguage)
        [ el "span" [("className", accentText styles)] [Text (if isEs lang then "ES" else "EN")];
          el "span" [("className", "text-sm")] [Text (if isEs lang then "Español" else "English")] ] ].

(** The tree the component returns, given the language state and the time
    string of this render. *)
Definition view (props : MeetingBannerProps) (lang : Lang) (timeString : string) : VNode :=
  let locationLabel := dflt "Designated Meeting Point" (locationLabel props) in
  let palette := dflt teal (palette props) in
  let className := dflt "" (className props) in
  let openInNewTab := dflt true (openInNewTab props) in
  let showLanguageToggle := dflt true (showLanguageToggle props) in
  let origin := dflt default_origin (origin props) in
  let destination := dflt default_destination (destination props) in
  let showMap := dflt true (showMap props) in
  let styles := paletteStyles palette in
  el "main" [("className",
              join " " ["min-h-screen w-full bg-white text-neutral-900";
                        "flex items-center justify-center"; "px-6"; className])]
    ([ el "section" [("className", "w-full max-w-3xl")]
         [ el "div" [("className",
                      "relative overflow-hidden rounded-2xl border border-neutral-200 bg-white shadow-xl")]
             [ el "div" [("className", join " " ["absolute inset-x-0 top-0 h-1"; gradient styles])] [];
               el "div" [("className", "p-7 sm:p-10 md:p-12")]
                 (brand_block props
                  ++ location_block styles locationLabel
                  ++ [ primary_block styles (title props lang) timeString;
                       policy_block styles (policy props lang timeString) ]
                  ++ when showMap
                       (map_block styles lang (googleMapsApiKey props) origin destination openInNewTab)
                  ++ [ client_route_block styles lang ]) ] ] ]
     ++ when showLanguageToggle (toggle_block styles lang))%list.

(** One render of the component in language state [lang]. *)
Definition MeetingBanner (P : Platform) (props : MeetingBannerProps) (lang : Lang)
  : Result VNode :=
  bind (timeString P props lang) (fun timeString => ret (view props lang timeString)).

(** *** The click handlers *)

(** What the browser answers the geolocation request of one click. *)
Inductive Geolocation : Type :=
| NotSupported
| Located (latitude longitude : string)
| Refused.

(** A call [window.open(url, target)]. *)
Record WindowOpen : Type := { wo_url : string; wo_target : string }.

Definition start_route (props : MeetingBannerProps) (geo : Geolocation) : WindowOpen :=
  let openInNewTab := dflt true (openInNewTab props) in
  let destination := dflt default_destination (destination props) in
  let target := if openInNewTab then "_blank" else "_self" in
  match geo with
  | Located latitude longitude =>
      {| wo_url := position_url latitude longitude destination; wo_target := target |}
  | Refused =>
      {| wo_url := fallback_url destination; wo_target := target |}
  | NotSupported =>
      {| wo_url := fallback_url destination; wo_target := target |}
  end.

(** A click: the language state after it and the window it opens. *)
Definition click (props : MeetingBannerProps) (geo : Geolocation)
    (h : Handler) (lang : Lang) : Lang * option WindowOpen :=
  match h with
  | ToggleLanguage => (toggle lang, None)
  | StartRoute => (lang, Some (start_route props geo))
  end.

(** *** What a reader of the page sees *)

(** The text of the main heading. *)
Definition heading_text (tree : VNode) : list string :=
  map textContent (select "h1" tree).

(** The lines of the policy paragraph, one per child. *)
Definition shown_policy_lines (tree : VNode) : list string :=
  flat_map (fun p => map textContent (children_of p)) (select "p" tree).

(** The tags these observations look for. *)
Definition sought : list string := ["h1"; "p"; "a"; "iframe"].

(** The embedded frames and the links of the page. *)
Definition frames (tree : VNode) : list VNode := select "iframe" tree.
Definition links (tree : VNode) : list VNode := select "a" tree.

End MeetingBanner.

(** ** The entry module *)

Module Main.
Import JS Host VDom MeetingBanner.

(** The host page: an element, its [id] if it has one, its children. *)
#[warnings="-register-all"] Inductive DomElement : Type :=
| Dom (tag : string) (id : option string) (children : list DomElement).

Definition dom_id (e : DomElement) : option string :=
  match e with
  | Dom _ i _ => i
  end.

(** The elements of a page in document order. *)
Fixpoint elements (e : DomElement) : list DomElement :=
  match e with
  | Dom _ _ cs => e :: flat_map elements cs
  end.

Definition has_id (i : string) (e : DomElement) : bool :=
  match dom_id e with
  | Some j => String.eqb i j
  | None => false
  end.

(** [document.getElementById]: the first element in document order. *)
Definition getElementById (document : DomElement) (i : string) : option DomElement :=
  find (has_id i) (elements document).

(** What the module does to the page: [createRoot(container).render(...)] of
    the banner, inside [React.StrictMode], with the given properties. *)
Inductive Effect : Type :=
| RenderBanner (container : DomElement) (props : MeetingBannerProps).

(** A run threads the effects performed so far and ends in a value or in a
    thrown exception. *)
Definition Prog (A : Type) : Type := list Effect -> list Effect * Result A.

Definition perform (e : Effect) : Prog unit :=
  fun log => ((log ++ [e])%list, ret tt).

Definition raise {A} (e : exn) : Prog A :=
  fun log => (log, throw e).

(** The properties the entry module gives the banner. *)
Definition app_props : MeetingBannerProps :=
  {| meetingTimeText := Some "5:30 PM";
     meetingDate := None;
     timeZone := None;
     locale := Some "es-ES";
     hour12 := None;
     locationLabel := Some "Designated Meeting Point";
     palette := Some teal;
     logoSrc := None;
     brandName := Some "MeetPoint Tours";
     titleText := None;
     policyLines := None;
     className := None;
     locationUrl := Some "https://maps.google.com/?q=Central%20Meeting%20Point";
     locationCtaLabel := None;
     openInNewTab := None;
     showLanguageToggle := None;
     googleMapsApiKey := None;
     origin := None;
     destination := None;
     showMap := None |}.

Definition main (document : DomElement) : Prog unit :=
  match getElementById document "root" with
  | None => raise (Error "Root element #root not found")
  | Some rootEl => perform (RenderBanner rootEl app_props)
  end.

(** What React first puts into the container of a performed render. *)
Definition first_output (P : Platform) (e : Effect) : Result VNode :=
  match e with
  | RenderBanner _ props => MeetingBanner.MeetingBanner P props (initial_lang props)
  end.

End Main.

(** ** A platform to run the definitions on

    Two language tags, the UTC time zone and one ISO date: enough to run the
    formatter on concrete inputs. *)

Module SamplePlatform.
Import JS Host.

Definition digit (n : Z) : string :=
  String (ascii_of_N (48 + Z.to_N n)) EmptyString.

Definition two_digits (n : Z) : string := digit (n / 10) ++ digit (n mod 10).

Definition decimal_hour (h : Z) : string :=
  if (h <? 10)%Z then digit h else two_digits h.

Definition sample_format (l : option string) (h12 : option bool) (z : option string) (t : Z)
  : string :=
  let minutes := ((t / 60000) mod 1440)%Z in
  let h := (minutes / 60)%Z in
  let m := (minutes mod 60)%Z in
  let twelve :=
    match h12 with
    | Some b => b
    | None => match l with Some "es-ES" => false | _ => true end
    end in
  if twelve then
    decimal_hour (if (h mod 12 =? 0)%Z then 12 else h mod 12)%Z ++ ":" ++ two_digits m
      ++ (if (h <? 12)%Z then " AM" else " PM")
  else decimal_hour h ++ ":" ++ two_digits m.

Definition sample : Platform :=
  {| Date_parse := fun s =>
       if String.eqb s "1970-01-01T09:05:00.000Z" then Some 32700000%Z else None;
     valid_locale := fun l => String.eqb l "en-US" || String.eqb l "es-ES";
     valid_timeZone := fun z => String.eqb z "UTC";
     format_hour_minute := sample_format |}.

End SamplePlatform.

(** ** The words of the specification

    The conditions the specification names, stated on the inputs. *)

Module Terms.
Import JS Host MeetingBanner.

(** No date-like value to format: none given, or one that is falsy (the
    empty string, the number 0, NaN). *)
Definition date_missing (opts : FormatOpts) : Prop :=
  match fo_meetingDate opts with
  | None => True
  | Some d => truthy_datelike d = false
  end.

(** The date-like value denotes no time. *)
Definition date_invalid (P : Platform) (opts : FormatOpts) : Prop :=
  exists d, fo_meetingDate opts = Some d /\ time_value (new_Date P d) = None.

(** A language tag was given and the platform rejects it. *)
Definition locale_rejected (P : Platform) (opts : FormatOpts) : Prop :=
  exists l, fo_locale opts = Some l /\ l <> "" /\ valid_locale P l = false.

(** No given language tag is rejected; the empty tag counts as none. *)
Definition locale_accepted (P : Platform) (opts : FormatOpts) : Prop :=
  forall l, fo_locale opts = Some l -> l <> "" -> valid_locale P l = true.

(** A time zone was given and the platform rejects it. *)
Definition timeZone_rejected (P : Platform) (opts : FormatOpts) : Prop :=
  exists z, fo_timeZone opts = Some z /\ valid_timeZone P z = false.

(** No given time zone is rejected. *)
Definition timeZone_accepted (P : Platform) (opts : FormatOpts) : Prop :=
  forall z, fo_timeZone opts = Some z -> valid_timeZone P z = true.

(** The locale string begins with the letters e and s, in either case. *)
Definition spanish_prefix (l : string) : Prop :=
  exists c1 c2 rest,
    l = String c1 (String c2 rest)
    /\ (c1 = "e" \/ c1 = "E")%char /\ (c2 = "s" \/ c2 = "S")%char.

End Terms.

(** ** Reading a page and its links

    What a reader, a browser or the mapping provider gets out of the markup
    and of the URLs the component builds. *)

Module Reading.
Import JS Host VDom MeetingBanner.

(** The value of a hexadecimal digit. *)
Definition hex_value (c : ascii) : option N :=
  let n := N_of_ascii c in
  if ((48 <=? n) && (n <=? 57))%N then Some (n - 48)%N
  else if ((65 <=? n) && (n <=? 70))%N then Some (n - 55)%N
  else if ((97 <=? n) && (n <=? 102))%N then Some (n - 87)%N
  else None.

(** [decodeURIComponent] on the bytes of a string: every [%XX] becomes the
    byte it names; [None] is the URIError of a malformed escape. *)
Fixpoint decodeURIComponent (s : string) : option string :=
  match s with
  | EmptyString => Some EmptyString
  | String c rest =>
      if Ascii.eqb c "%" then
        match rest with
        | String h (String l rest') =>
            match hex_value h, hex_value l, decodeURIComponent rest' with
            | Some a, Some b, Some r => Some (String (ascii_of_N (16 * a + b)) r)
            | _, _, _ => None
            end
        | _ => None
        end
      else option_map (String c) (decodeURIComponent rest)
  end.

(** The string has no occurrence of the character. *)
Definition lacks (c : ascii) (s : string) : bool :=
  all_chars (fun x => negb (Ascii.eqb x c)) s.

(** The text before the first occurrence of a character and, when the
    character occurs, the text after it. *)
Fixpoint cut (c : ascii) (s : string) : string * option string :=
  match s with
  | EmptyString => (EmptyString, None)
  | String x t =>
      if Ascii.eqb x c then (EmptyString, Some t)
      else let (a, b) := cut c t in (String x a, b)
  end.

(** [String.prototype.split] on a separator of one character. *)
Fixpoint split (c : ascii) (s : string) : list string :=
  match s with
  | EmptyString => [EmptyString]
  | String x t =>
      if Ascii.eqb x c then EmptyString :: split c t
      else match split c t with
           | [] => [String x EmptyString]
           | h :: r => String x h :: r
           end
  end.

(** The parameters of the query of a URL, in order, as written: the text
    after the first [?], split at each [&], each part split at its first
    [=]. *)
Definition query_params (url : string) : list (string * string) :=
  match cut "?" url with
  | (_, Some query) =>
      map (fun part => match cut "=" part with
                       | (k, Some v) => (k, v)
                       | (k, None) => (k, EmptyString)
                       end)
          (split "&" query)
  | (_, None) => []
  end.

(** The same parameters with their values decoded. *)
Definition decoded_params (url : string) : list (string * option string) :=
  map (fun kv => (fst kv, decodeURIComponent (snd kv))) (query_params url).

(** A query written from its parameters. *)
Definition write_query (params : list (string * string)) : string :=
  String.concat "&" (map (fun kv => fst kv ++ "=" ++ snd kv) params).

(** A parameter that can be written into a query and read back: no [&] or
    [=] in its name, no [&] in its value. *)
Definition writable (kv : string * string) : bool :=
  lacks "&" (fst kv) && lacks "=" (fst kv) && lacks "&" (snd kv).

(** A configuration with the toggle switched, or with a title of its own. *)
Definition set_showLanguageToggle (v : option bool) (p : MeetingBannerProps)
  : MeetingBannerProps :=
  {| meetingTimeText := meetingTimeText p; meetingDate := meetingDate p; timeZone := timeZone p;
     locale := locale p; hour12 := hour12 p; locationLabel := locationLabel p;
     palette := palette p; logoSrc := logoSrc p; brandName := brandName p;
     titleText := titleText p; policyLines := policyLines p; className := className p;
     locationUrl := locationUrl p; locationCtaLabel := locationCtaLabel p;
     openInNewTab := openInNewTab p; showLanguageToggle := v;
     googleMapsApiKey := googleMapsApiKey p; origin := origin p;
     destination := destination p; showMap := showMap p |}.

Definition set_titleText (v : option string) (p : MeetingBannerProps) : MeetingBannerProps :=
  {| meetingTimeText := meetingTimeText p; meetingDate := meetingDate p; timeZone := timeZone p;
     locale := locale p; hour12 := hour12 p; locationLabel := locationLabel p;
     palette := palette p; logoSrc := logoSrc p; brandName := brandName p;
     titleText := v; policyLines := policyLines p; className := className p;
     locationUrl := locationUrl p; locationCtaLabel := locationCtaLabel p;
     openInNewTab := openInNewTab p; showLanguageToggle := showLanguageToggle p;
     googleMapsApiKey := googleMapsApiKey p; origin := origin p;
     destination := destination p; showMap := showMap p |}.

Definition set_palette (v : option Palette) (p : MeetingBannerProps) : MeetingBannerProps :=
  {| meetingTimeText := meetingTimeText p; meetingDate := meetingDate p; timeZone := timeZone p;
     locale := locale p; hour12 := hour12 p; locationLabel := locationLabel p;
     palette := v; logoSrc := logoSrc p; brandName := brandName p;
     titleText := titleText p; policyLines := policyLines p; className := className p;
     locationUrl := locationUrl p; locationCtaLabel := locationCtaLabel p;
     openInNewTab := openInNewTab p; showLanguageToggle := showLanguageToggle p;
     googleMapsApiKey := googleMapsApiKey p; origin := origin p;
     destination := destination p; showMap := showMap p |}.

(** The click handlers of a page, in document order. *)
Fixpoint handlers (n : VNode) : list Handler :=
  match n with
  | Text _ => []
  | Elem _ _ h cs =>
      ((match h with Some x => [x] | None => [] end) ++ flat_map handlers cs)%list
  end.

(** The text nodes of a page, in document order. An empty string among
    the children of an element makes no text node: React renders nothing
    for it. *)
Fixpoint texts (n : VNode) : list string :=
  match n with
  | Text s => if truthy_string s then [s] else []
  | Elem _ _ _ cs => flat_map texts cs
  end.

(** The images of a page, each with its [src] and its [alt]. *)
Definition images (tree : VNode) : list (option string * option string) :=
  map (fun i => (attr "src" i, attr "alt" i)) (select "img" tree).

(** The language states a reader can bring the page to: the initial one,
    and the one after a click on a control the current page has. *)
Inductive reachable (P : Platform) (props : MeetingBannerProps) : Lang -> Prop :=
| reach_initial : reachable P props (initial_lang props)
| reach_click (lang : Lang) (tree : VNode) (h : Handler) (geo : Geolocation) :
    reachable P props lang ->
    MeetingBanner.MeetingBanner P props lang = ret tree ->
    In h (handlers tree) ->
    reachable P props (fst (click props geo h lang)).

(** The language state after a number of presses of the toggle. *)
Definition presses (n : nat) (lang : Lang) : Lang := Nat.iter n toggle lang.

(** The characters of the text JavaScript gives a finite number: digits,
    sign, point and exponent. *)
Definition coordinate_char (c : ascii) : bool :=
  let n := N_of_ascii c in
  ((48 <=? n) && (n <=? 57))%N
  || existsb (Ascii.eqb c) (list_ascii_of_string "+-.e").

End Reading.

(** * Properties *)

(** ** Strings *)

Section Strings.

Lemma append_assoc (a b c : string) : (a ++ b) ++ c = a ++ b ++ c.
Proof.
  induction a as [|x a IH]; simpl; [reflexivity | now rewrite IH].
Qed.

Lemma prefix_refl_app (p r : string) : String.prefix p (p ++ r) = true.
Proof.
  induction p as [|c p IH]; simpl.
  - now destruct r.
  - destruct (ascii_dec c c) as [_|ne]; [exact IH | now elim ne].
Qed.

Lemma prefix_split (p s : string) :
  String.prefix p s = true -> exists r, s = p ++ r.
Proof.
  revert s; induction p as [|c p IH]; intros s H.
  - now exists s.
  - destruct s as [|d s]; simpl in H; [discriminate|].
    destruct (ascii_dec c d) as [->|]; [|discriminate].
    destruct (IH s H) as [r ->]. now exists r.
Qed.

(** [includes] decides the occurrence of a substring. *)
Lemma includes_spec (s sub : string) :
  JS.includes s sub = true <-> exists a b, s = a ++ sub ++ b.
Proof.
  split.
  - induction s as [|c s IH]; cbn [JS.includes]; intros H.
    + rewrite orb_false_r in H. apply prefix_split in H as [r ->]. now exists "", r.
    + apply orb_true_iff in H as [H|H].
      * apply prefix_split in H as [r Hr]. exists "", r. exact Hr.
      * destruct (IH H) as (a & b & ->). now exists (String c a), b.
  - intros (a & b & ->). induction a as [|c a IH].
    + change ("" ++ sub ++ b) with (sub ++ b).
      destruct (sub ++ b) eqn:E; cbn [JS.includes];
        rewrite <- E, prefix_refl_app; reflexivity.
    + change (String c a ++ sub ++ b) with (String c (a ++ sub ++ b)).
      cbn [JS.includes]. rewrite IH. apply orb_true_r.
Qed.

End Strings.


(** ** The time formatter *)

Section Formatter.
Import JS Host MeetingBanner Terms.

Variable P : Platform.

(** The formatter returns on every input: every path of its body ends in
    a [return], and what the [try] block throws is caught. *)
Lemma formatMeetingTime_returns (opts : FormatOpts) :
  exists s, formatMeetingTime P opts = ret s.
Proof.
  unfold formatMeetingTime.
  destruct (fo_meetingTimeText opts) as [[|c t]|]; eauto;
    (destruct (fo_meetingDate opts) as [d|]; [|eauto];
     destruct (truthy_datelike d); simpl; [|eauto];
     destruct (new_DateTimeFormat P _ _ _) as [e|f]; simpl; [eauto|];
     destruct (format P f _) as [e|s]; simpl; eauto).
Qed.

(** Without a time text the formatter goes on to the date. *)
Lemma formatMeetingTime_no_text (opts : FormatOpts) :
  truthy_opt (fo_meetingTimeText opts) = false ->
  formatMeetingTime P opts =
  match fo_meetingDate opts with
  | None => ret fallback_time
  | Some d =>
      if negb (truthy_datelike d) then ret fallback_time
      else try_catch
             (bind (new_DateTimeFormat P (or_undefined (fo_locale opts))
                      (fo_hour12 opts) (fo_timeZone opts))
                   (fun f => format P f (new_Date P d)))
             (fun _ => ret fallback_time)
  end.
Proof.
  unfold formatMeetingTime.
  destruct (fo_meetingTimeText opts) as [[|c t]|]; simpl; intros H;
    [reflexivity | discriminate | reflexivity].
Qed.

(** C2 (amended). A time text that is not the empty string is returned as
    it is, whatever the date, the locale, the time zone and the hour cycle
    are. *)
Theorem formatMeetingTime_text_verbatim (opts : FormatOpts) (s : string) :
  fo_meetingTimeText opts = Some s ->
  s <> "" ->
  formatMeetingTime P opts = ret s.
Proof.
  intros Htext Hne. unfold formatMeetingTime. rewrite Htext.
  destruct s as [|c t]; [now elim Hne | reflexivity].
Qed.

(** What the formatter does with no time text, as the code has it. It
    returns the fixed default ["5:30 PM"] when the presence test of line
    128 fails, when a given non-empty locale or a given time zone is
    rejected by the platform, and when the date denotes no time; it
    returns the platform's hour and minute text of the date when the date
    passes the presence test and is valid and locale and time zone are
    accepted. It never throws. *)
Theorem formatMeetingTime_fallback_or_formatted (opts : FormatOpts) :
  truthy_opt (fo_meetingTimeText opts) = false ->
  (date_missing opts \/ locale_rejected P opts \/ timeZone_rejected P opts
     \/ date_invalid P opts ->
   formatMeetingTime P opts = ret "5:30 PM")
  /\ (forall d t,
        fo_meetingDate opts = Some d ->
        truthy_datelike d = true ->
        time_value (new_Date P d) = Some t ->
        locale_accepted P opts ->
        timeZone_accepted P opts ->
        formatMeetingTime P opts =
        ret (format_hour_minute P (or_undefined (fo_locale opts))
               (fo_hour12 opts) (fo_timeZone opts) t)).
Proof.
  intros Htext. rewrite (formatMeetingTime_no_text opts Htext). split.
  - intros Hcase.
    destruct (fo_meetingDate opts) as [d|] eqn:Hd; [|reflexivity].
    destruct (truthy_datelike d) eqn:Ht; simpl; [|reflexivity].
    unfold new_DateTimeFormat.
    destruct Hcase as [Hm | [(l & Hl & Hne & Hrej) | [(z & Hz & Hrej) | (d' & Hd' & Hinv)]]].
    + unfold date_missing in Hm. rewrite Hd in Hm. congruence.
    + rewrite Hl. destruct l as [|c l]; [now elim Hne|]. simpl. now rewrite Hrej.
    + rewrite Hz, Hrej. simpl.
      now destruct (match or_undefined (fo_locale opts) with
                    | Some l => valid_locale P l | None => true end).
    + rewrite Hd in Hd'. injection Hd' as <-.
      destruct (negb _); [reflexivity|]. destruct (negb _); [reflexivity|].
      simpl. unfold format. now rewrite Hinv.
  - intros d t Hd Ht Htv Hloc Hzone. rewrite Hd, Ht. simpl.
    unfold new_DateTimeFormat.
    assert (Hl : match or_undefined (fo_locale opts) with
                 | Some l => valid_locale P l | None => true end = true).
    { destruct (fo_locale opts) as [[|c l]|] eqn:E; simpl; try reflexivity.
      apply Hloc; [exact E | discriminate]. }
    assert (Hz : match fo_timeZone opts with
                 | Some z => valid_timeZone P z | None => true end = true).
    { destruct (fo_timeZone opts) as [z|] eqn:E; [now apply Hzone | reflexivity]. }
    rewrite Hl, Hz. simpl. unfold format. simpl. now rewrite Htv.
Qed.

End Formatter.

Section FormatterRuns.
Import JS Host MeetingBanner Terms SamplePlatform.

Lemma formatMeetingTime_text_verbatim_witness :
  formatMeetingTime sample
    {| fo_meetingTimeText := Some "5:30 PM";
       fo_meetingDate := Some (OfString "1970-01-01T09:05:00.000Z");
       fo_locale := Some "es-ES"; fo_timeZone := Some "UTC"; fo_hour12 := Some false |}
  = ret "5:30 PM".
Proof.
  apply formatMeetingTime_text_verbatim; [reflexivity | discriminate].
Defined.

(** The empty string is a time text the formatter does not return. *)
Lemma formatMeetingTime_empty_text_counterexample :
  formatMeetingTime sample
    {| fo_meetingTimeText := Some ""; fo_meetingDate := None;
       fo_locale := None; fo_timeZone := None; fo_hour12 := None |}
  = ret "5:30 PM"
  /\ formatMeetingTime sample
       {| fo_meetingTimeText := Some ""; fo_meetingDate := None;
          fo_locale := None; fo_timeZone := None; fo_hour12 := None |}
     <> ret "".
Proof.
  split; [reflexivity | discriminate].
Qed.

Lemma formatMeetingTime_fallback_or_formatted_witness :
  formatMeetingTime sample
    {| fo_meetingTimeText := None;
       fo_meetingDate := Some (OfString "1970-01-01T09:05:00.000Z");
       fo_locale := Some "xx-invalid-tag"; fo_timeZone := Some "UTC"; fo_hour12 := None |}
  = ret "5:30 PM"
  /\ formatMeetingTime sample
       {| fo_meetingTimeText := None;
          fo_meetingDate := Some (OfString "1970-01-01T09:05:00.000Z");
          fo_locale := Some "es-ES"; fo_timeZone := Some "UTC"; fo_hour12 := None |}
     = ret "9:05".
Proof.
  split.
  - apply (proj1 (formatMeetingTime_fallback_or_formatted sample
                    {| fo_meetingTimeText := None;
                       fo_meetingDate := Some (OfString "1970-01-01T09:05:00.000Z");
                       fo_locale := Some "xx-invalid-tag"; fo_timeZone := Some "UTC";
                       fo_hour12 := None |} eq_refl)).
    right; left. exists "xx-invalid-tag". repeat split; [discriminate].
  - apply (proj2 (formatMeetingTime_fallback_or_formatted sample
                    {| fo_meetingTimeText := None;
                       fo_meetingDate := Some (OfString "1970-01-01T09:05:00.000Z");
                       fo_locale := Some "es-ES"; fo_timeZone := Some "UTC";
                       fo_hour12 := None |} eq_refl)
             (OfString "1970-01-01T09:05:00.000Z") 32700000%Z);
      try reflexivity.
    + intros l [= <-] _. reflexivity.
    + intros z [= <-]. reflexivity.
Defined.

(** C3. The formatter at the numeric timestamp 0, with an accepted locale
    and time zone: the date is given and valid, its time is "12:00 AM",
    yet the presence test of line 128 takes 0 for a missing date and the
    formatter answers the default "5:30 PM". The timestamps next to it, -1
    and 0.5, are formatted. *)
Lemma formatMeetingTime_timestamp_zero :
  time_value (new_Date sample (OfNumber (Finite 0))) = Some 0%Z
  /\ valid_locale sample "en-US" = true
  /\ valid_timeZone sample "UTC" = true
  /\ format_hour_minute sample (Some "en-US") None (Some "UTC") 0 = "12:00 AM"
  /\ formatMeetingTime sample
       {| fo_meetingTimeText := None; fo_meetingDate := Some (OfNumber (Finite 0));
          fo_locale := Some "en-US"; fo_timeZone := Some "UTC"; fo_hour12 := None |}
     = ret "5:30 PM"
  /\ formatMeetingTime sample
       {| fo_meetingTimeText := None; fo_meetingDate := Some (OfNumber (Finite 0));
          fo_locale := Some "en-US"; fo_timeZone := Some "UTC"; fo_hour12 := None |}
     <> ret (format_hour_minute sample (Some "en-US") None (Some "UTC") 0)
  /\ formatMeetingTime sample
       {| fo_meetingTimeText := None; fo_meetingDate := Some (OfNumber (Finite (-1)));
          fo_locale := Some "en-US"; fo_timeZone := Some "UTC"; fo_hour12 := None |}
     = ret "11:59 PM"
  /\ formatMeetingTime sample
       {| fo_meetingTimeText := None; fo_meetingDate := Some (OfNumber (Finite (1 # 2)));
          fo_locale := Some "en-US"; fo_timeZone := Some "UTC"; fo_hour12 := None |}
     = ret "12:00 AM".
Proof.
  repeat split; discriminate.
Qed.

End FormatterRuns.

(** ** The language state *)

Section Language.
Import JS Host MeetingBanner Terms.

Lemma lower_ascii_e (c : ascii) :
  lower_ascii c = "e"%char <-> (c = "e" \/ c = "E")%char.
Proof.
  destruct c as [[] [] [] [] [] [] [] []]; vm_compute;
    split; intros H; try discriminate; auto; destruct H; discriminate.
Qed.

Lemma lower_ascii_s (c : ascii) :
  lower_ascii c = "s"%char <-> (c = "s" \/ c = "S")%char.
Proof.
  destruct c as [[] [] [] [] [] [] [] []]; vm_compute;
    split; intros H; try discriminate; auto; destruct H; discriminate.
Qed.

Lemma startsWith_es (l : string) :
  startsWith (toLowerCase l) "es" = true <-> spanish_prefix l.
Proof.
  unfold startsWith, spanish_prefix. split.
  - destruct l as [|c1 [|c2 rest]]; cbn [toLowerCase String.prefix].
    + discriminate.
    + destruct (ascii_dec "e" (lower_ascii c1)); discriminate.
    + destruct (ascii_dec "e" (lower_ascii c1)) as [H1|]; [|discriminate].
      destruct (ascii_dec "s" (lower_ascii c2)) as [H2|]; [|discriminate].
      intros _. exists c1, c2, rest. split; [reflexivity|].
      split; [now apply lower_ascii_e | now apply lower_ascii_s].
  - intros (c1 & c2 & rest & -> & H1 & H2).
    apply lower_ascii_e in H1. apply lower_ascii_s in H2.
    cbn [toLowerCase String.prefix]. rewrite H1, H2. simpl.
    now destruct (toLowerCase rest).
Qed.

(** C7. The language state starts as Spanish exactly when a locale is
    configured and its first two letters are e and s in either case; in
    every other case, an absent locale included, it starts as English. *)
Theorem initial_lang_from_locale_prefix (props : MeetingBannerProps) :
  (initial_lang props = es <-> exists l, locale props = Some l /\ spanish_prefix l)
  /\ (initial_lang props = en <-> ~ exists l, locale props = Some l /\ spanish_prefix l)
  /\ (locale props = None -> initial_lang props = en).
Proof.
  assert (Hes : initial_lang props = es <->
                exists l, locale props = Some l /\ spanish_prefix l).
  { unfold initial_lang.
    destruct (startsWith _ "es") eqn:E.
    - split; [intros _ | reflexivity].
      apply startsWith_es in E. unfold or_else in E.
      destruct (locale props) as [l|].
      + exists l. split; [reflexivity|]. now destruct l.
      + destruct E as (? & ? & ? & ? & _); discriminate.
    - split; [discriminate|]. intros (l & Hl & Hsp).
      rewrite Hl in E.
      assert (Hor : or_else (Some l) "" = l) by now destruct l.
      rewrite Hor in E. apply startsWith_es in Hsp. congruence. }
  split; [exact Hes|]. split.
  - rewrite <- Hes. destruct (initial_lang props); split; congruence.
  - intros Hnone. unfold initial_lang. now rewrite Hnone.
Qed.

Lemma initial_lang_from_locale_prefix_witness :
  initial_lang no_props = en /\ initial_lang (set_locale (Some "ES-mx") no_props) = es.
Proof.
  split.
  - apply (proj2 (proj2 (initial_lang_from_locale_prefix no_props))). reflexivity.
  - apply (proj1 (initial_lang_from_locale_prefix (set_locale (Some "ES-mx") no_props))).
    exists "ES-mx". split; [reflexivity|].
    exists "E"%char, "S"%char, "-mx". repeat split; now right.
Defined.

End Language.

(** ** The markup *)

Section Markup.
Import JS Host VDom MeetingBanner.

Ltac each_sought H :=
  unfold sought in H; simpl In in H;
  repeat (destruct H as [<-|H]); [..|now elim H].

Lemma select_el (t tag : string) (attrs : list (string * string)) (cs : list VNode) :
  select t (el tag attrs cs) =
  ((if String.eqb t tag then [el tag attrs cs] else []) ++ flat_map (select t) cs)%list.
Proof.
  reflexivity.
Qed.

Lemma select_brand_block (t : string) (props : MeetingBannerProps) :
  In t sought -> flat_map (select t) (brand_block props) = [].
Proof.
  intros H; each_sought H; unfold brand_block, when;
    destruct (truthy_opt (logoSrc props)), (truthy_opt (brandName props)); reflexivity.
Qed.

Lemma select_location_block (t : string) (styles : PaletteStyle) (label : string) :
  In t sought -> flat_map (select t) (location_block styles label) = [].
Proof.
  intros H; each_sought H; unfold location_block, when;
    destruct (truthy_string label); reflexivity.
Qed.

Lemma select_primary_block (t : string) (styles : PaletteStyle) (title ts : string) :
  In t sought ->
  select t (primary_block styles title ts) =
  if String.eqb t "h1" then [heading styles title ts] else [].
Proof.
  intros H; each_sought H; reflexivity.
Qed.

Lemma select_policy_spans (t : string) (lines : list string) :
  In t sought ->
  flat_map (select t)
    (map (fun line => el "span" [("className", "block")] [Text line]) lines) = [].
Proof.
  intros H. induction lines as [|l ls IH]; [reflexivity|].
  cbn [map flat_map]. rewrite IH. each_sought H; reflexivity.
Qed.

Lemma select_policy_block (t : string) (styles : PaletteStyle) (lines : list string) :
  In t sought ->
  select t (policy_block styles lines) =
  if String.eqb t "p" then [policy_paragraph lines] else [].
Proof.
  intros H. pose proof (select_policy_spans t lines H) as Hs.
  unfold policy_block, policy_paragraph, el in *.
  each_sought H; cbn [select flat_map String.eqb Ascii.eqb Bool.eqb app andb];
    rewrite Hs; reflexivity.
Qed.

Lemma select_map_block (t : string) (styles : PaletteStyle) (lang : Lang)
    (key : option string) (o d : string) (newTab : bool) :
  In t sought ->
  select t (map_block styles lang key o d newTab) =
  if truthy_opt key
  then (if String.eqb t "iframe" then [route_frame (or_else key "") o d] else [])
  else (if String.eqb t "a" then [route_link styles lang o d newTab] else []).
Proof.
  intros H; each_sought H; unfold map_block; destruct (truthy_opt key); reflexivity.
Qed.

Lemma select_client_route_block (t : string) (styles : PaletteStyle) (lang : Lang) :
  In t sought -> select t (client_route_block styles lang) = [].
Proof.
  intros H; each_sought H; reflexivity.
Qed.

Lemma select_toggle_block (t : string) (styles : PaletteStyle) (lang : Lang) :
  In t sought -> select t (toggle_block styles lang) = [].
Proof.
  intros H; each_sought H; reflexivity.
Qed.

(** What a search of the whole page for one of the sought tags finds. *)
Lemma select_view (t : string) (props : MeetingBannerProps) (lang : Lang) (ts : string) :
  In t sought ->
  select t (view props lang ts) =
  ((if String.eqb t "h1"
    then [heading (paletteStyles (dflt teal (palette props))) (title props lang) ts]
    else [])
   ++ (if String.eqb t "p" then [policy_paragraph (policy props lang ts)] else [])
   ++ (if dflt true (showMap props)
       then select t (map_block (paletteStyles (dflt teal (palette props))) lang
                        (googleMapsApiKey props)
                        (dflt default_origin (origin props))
                        (dflt default_destination (destination props))
                        (dflt true (openInNewTab props)))
       else []))%list.
Proof.
  intros H. unfold view.
  set (styles := paletteStyles (dflt teal (palette props))).
  set (mb := map_block _ _ _ _ _ _).
  assert (Hroot : String.eqb t "main" = false /\ String.eqb t "section" = false
                  /\ String.eqb t "div" = false).
  { each_sought H; repeat split. }
  destruct Hroot as (Hmain & Hsection & Hdiv).
  repeat first [rewrite select_el | rewrite flat_map_app | progress cbn [flat_map]].
  rewrite Hmain, Hsection, !Hdiv.
  rewrite select_brand_block, select_location_block, select_primary_block,
    select_policy_block, select_client_route_block by exact H.
  assert (Htoggle : flat_map (select t)
            (when (dflt true (showLanguageToggle props)) (toggle_block styles lang)) = []).
  { destruct (dflt true (showLanguageToggle props)); [|reflexivity].
    cbn [when flat_map]. now rewrite select_toggle_block. }
  rewrite Htoggle.
  destruct (dflt true (showMap props)); cbn [when flat_map app];
    rewrite ?app_nil_r; rewrite <- ?app_assoc; reflexivity.
Qed.

Lemma textContent_policy_spans (lines : list string) :
  map textContent
    (map (fun line => el "span" [("className", "block")] [Text line]) lines) = lines.
Proof.
  induction lines as [|l ls IH]; [reflexivity|].
  cbn [map]. rewrite IH. reflexivity.
Qed.

(** The policy paragraph shows the lines of [policy], one per [span]. *)
Lemma shown_policy_lines_view (props : MeetingBannerProps) (lang : Lang) (ts : string) :
  shown_policy_lines (view props lang ts) = policy props lang ts.
Proof.
  unfold shown_policy_lines.
  rewrite select_view by (unfold sought; simpl; tauto).
  rewrite select_map_block by (unfold sought; simpl; tauto).
  replace (if dflt true (showMap props)
           then if truthy_opt (googleMapsApiKey props)
                then if String.eqb "p" "iframe" then _ else _
                else if String.eqb "p" "a" then _ else _
           else []) with (@nil VNode)
    by (destruct (dflt true (showMap props)), (truthy_opt (googleMapsApiKey props));
        reflexivity).
  cbn [String.eqb Ascii.eqb Bool.eqb app flat_map andb].
  unfold policy_paragraph. cbn [el children_of].
  rewrite textContent_policy_spans. apply app_nil_r.
Qed.

(** The heading reads: the title, a colon, the time string. *)
Lemma heading_text_view (props : MeetingBannerProps) (lang : Lang) (ts : string) :
  heading_text (view props lang ts) = [title props lang ++ ": " ++ ts].
Proof.
  unfold heading_text.
  rewrite select_view by (unfold sought; simpl; tauto).
  rewrite select_map_block by (unfold sought; simpl; tauto).
  replace (if dflt true (showMap props)
           then if truthy_opt (googleMapsApiKey props)
                then if String.eqb "h1" "iframe" then _ else _
                else if String.eqb "h1" "a" then _ else _
           else []) with (@nil VNode)
    by (destruct (dflt true (showMap props)), (truthy_opt (googleMapsApiKey props));
        reflexivity).
  reflexivity.
Qed.

(** The links of the page: the route link, when the map section is shown
    and there is no key. *)
Lemma links_view (props : MeetingBannerProps) (lang : Lang) (ts : string) :
  links (view props lang ts) =
  if dflt true (showMap props) && negb (truthy_opt (googleMapsApiKey props))
  then [route_link (paletteStyles (dflt teal (palette props))) lang
          (dflt default_origin (origin props))
          (dflt default_destination (destination props))
          (dflt true (openInNewTab props))]
  else [].
Proof.
  unfold links.
  rewrite select_view by (unfold sought; simpl; tauto).
  rewrite select_map_block by (unfold sought; simpl; tauto).
  destruct (dflt true (showMap props)), (truthy_opt (googleMapsApiKey props)); reflexivity.
Qed.

(** The frames of the page: the route frame, when the map section is shown
    and there is a key. *)
Lemma frames_view (props : MeetingBannerProps) (lang : Lang) (ts : string) :
  frames (view props lang ts) =
  if dflt true (showMap props) && truthy_opt (googleMapsApiKey props)
  then [route_frame (or_else (googleMapsApiKey props) "")
          (dflt default_origin (origin props))
          (dflt default_destination (destination props))]
  else [].
Proof.
  unfold frames.
  rewrite select_view by (unfold sought; simpl; tauto).
  rewrite select_map_block by (unfold sought; simpl; tauto).
  destruct (dflt true (showMap props)), (truthy_opt (googleMapsApiKey props)); reflexivity.
Qed.

End Markup.

(** ** The route URLs *)

Section Routes.
Import JS Host VDom MeetingBanner.

Lemma all_chars_app (p : ascii -> bool) (a b : string) :
  all_chars p (a ++ b) = all_chars p a && all_chars p b.
Proof.
  induction a as [|c a IH]; simpl; [reflexivity | now rewrite IH, andb_assoc].
Qed.

Lemma percent_encode_safe (c : ascii) : all_chars url_safe (percent_encode c) = true.
Proof.
  destruct c as [[] [] [] [] [] [] [] []]; reflexivity.
Qed.

(** An encoded component has no character that could end or split a query
    parameter: nothing but unescaped characters and percent signs. *)
Lemma encodeURIComponent_safe (s : string) :
  all_chars url_safe (encodeURIComponent s) = true.
Proof.
  induction s as [|c s IH]; [reflexivity|].
  cbn [encodeURIComponent]. rewrite all_chars_app, IH, andb_true_r.
  destruct (is_unescaped c) eqn:E.
  - cbn [all_chars]. unfold url_safe. now rewrite E.
  - apply percent_encode_safe.
Qed.

Ltac inside a b :=
  apply includes_spec; exists a, b;
  unfold embed_url, route_url, position_url, fallback_url;
  rewrite ?append_assoc; reflexivity.

Lemma embed_url_parts (key o d : string) :
  includes (embed_url key o d) ("key=" ++ encodeURIComponent key) = true
  /\ includes (embed_url key o d) ("origin=" ++ encodeURIComponent o) = true
  /\ includes (embed_url key o d) ("destination=" ++ encodeURIComponent d) = true
  /\ includes (embed_url key o d) "&mode=walking" = true.
Proof.
  repeat match goal with |- _ /\ _ => split end.
  - inside "https://www.google.com/maps/embed/v1/directions?"
           ("&origin=" ++ encodeURIComponent o
              ++ "&destination=" ++ encodeURIComponent d ++ "&mode=walking").
  - inside ("https://www.google.com/maps/embed/v1/directions?key="
              ++ encodeURIComponent key ++ "&")
           ("&destination=" ++ encodeURIComponent d ++ "&mode=walking").
  - inside ("https://www.google.com/maps/embed/v1/directions?key="
              ++ encodeURIComponent key ++ "&origin=" ++ encodeURIComponent o ++ "&")
           "&mode=walking".
  - inside ("https://www.google.com/maps/embed/v1/directions?key="
              ++ encodeURIComponent key ++ "&origin=" ++ encodeURIComponent o
              ++ "&destination=" ++ encodeURIComponent d)
           "".
Qed.

Lemma route_url_parts (o d : string) :
  includes (route_url o d) ("origin=" ++ encodeURIComponent o) = true
  /\ includes (route_url o d) ("destination=" ++ encodeURIComponent d) = true
  /\ includes (route_url o d) "&travelmode=walking" = true.
Proof.
  repeat match goal with |- _ /\ _ => split end.
  - inside "https://www.google.com/maps/dir/?api=1&"
           ("&destination=" ++ encodeURIComponent d ++ "&travelmode=walking").
  - inside ("https://www.google.com/maps/dir/?api=1&origin=" ++ encodeURIComponent o ++ "&")
           "&travelmode=walking".
  - inside ("https://www.google.com/maps/dir/?api=1&origin=" ++ encodeURIComponent o
              ++ "&destination=" ++ encodeURIComponent d)
           "".
Qed.

Lemma fallback_url_parts (d : string) :
  includes (fallback_url d) "origin=Current+Location" = true
  /\ includes (fallback_url d) ("destination=" ++ encodeURIComponent d) = true
  /\ includes (fallback_url d) "&travelmode=walking" = true.
Proof.
  repeat match goal with |- _ /\ _ => split end.
  - inside "https://www.google.com/maps/dir/?api=1&"
           ("&destination=" ++ encodeURIComponent d ++ "&travelmode=walking").
  - inside "https://www.google.com/maps/dir/?api=1&origin=Current+Location&"
           "&travelmode=walking".
  - inside ("https://www.google.com/maps/dir/?api=1&origin=Current+Location&destination="
              ++ encodeURIComponent d)
           "".
Qed.

Lemma position_url_parts (latitude longitude d : string) :
  includes (position_url latitude longitude d)
    ("origin=" ++ latitude ++ "," ++ longitude) = true
  /\ includes (position_url latitude longitude d)
       ("destination=" ++ encodeURIComponent d) = true
  /\ includes (position_url latitude longitude d) "&travelmode=walking" = true.
Proof.
  repeat match goal with |- _ /\ _ => split end.
  - inside "https://www.google.com/maps/dir/?api=1&"
           ("&destination=" ++ encodeURIComponent d ++ "&travelmode=walking").
  - inside ("https://www.google.com/maps/dir/?api=1&origin=" ++ latitude ++ ","
              ++ longitude ++ "&")
           "&travelmode=walking".
  - inside ("https://www.google.com/maps/dir/?api=1&origin=" ++ latitude ++ ","
              ++ longitude ++ "&destination=" ++ encodeURIComponent d)
           "".
Qed.

(** C8 (amended). The URL of the embedded frame and the URL of the route
    link carry the origin and the destination URL-encoded and a walking
    mode parameter ([mode=walking] in the frame, [travelmode=walking] in the
    link). The URLs the route button opens carry the encoded destination
    and [travelmode=walking]; their origin is the position of the client
    or, when there is none, the fixed text [Current+Location], never the
    configured origin. *)
Theorem route_urls_encoded_and_walking (key o d latitude longitude : string) :
  (includes (embed_url key o d) ("origin=" ++ encodeURIComponent o) = true
   /\ includes (embed_url key o d) ("destination=" ++ encodeURIComponent d) = true
   /\ includes (embed_url key o d) "&mode=walking" = true)
  /\ (includes (route_url o d) ("origin=" ++ encodeURIComponent o) = true
      /\ includes (route_url o d) ("destination=" ++ encodeURIComponent d) = true
      /\ includes (route_url o d) "&travelmode=walking" = true)
  /\ (includes (fallback_url d) "origin=Current+Location" = true
      /\ includes (fallback_url d) ("destination=" ++ encodeURIComponent d) = true
      /\ includes (fallback_url d) "&travelmode=walking" = true)
  /\ (includes (position_url latitude longitude d)
        ("origin=" ++ latitude ++ "," ++ longitude) = true
      /\ includes (position_url latitude longitude d)
           ("destination=" ++ encodeURIComponent d) = true
      /\ includes (position_url latitude longitude d) "&travelmode=walking" = true)
  /\ (forall props geo,
        wo_url (start_route props geo) =
        match geo with
        | Located la lo => position_url la lo (dflt default_destination (destination props))
        | _ => fallback_url (dflt default_destination (destination props))
        end)
  /\ all_chars url_safe (encodeURIComponent o) = true
  /\ all_chars url_safe (encodeURIComponent d) = true.
Proof.
  split; [exact (proj2 (embed_url_parts key o d))|].
  split; [exact (route_url_parts o d)|].
  split; [exact (fallback_url_parts d)|].
  split; [exact (position_url_parts latitude longitude d)|].
  split; [intros props geo; now destruct geo|].
  split; apply encodeURIComponent_safe.
Qed.

End Routes.

(** ** The banner *)

Section Banner.
Import JS Host VDom MeetingBanner.

Variable P : Platform.

(** A render returns the markup of the time string the formatter gives. *)
Lemma MeetingBanner_renders (props : MeetingBannerProps) (lang : Lang) :
  exists ts, timeString P props lang = ret ts
             /\ MeetingBanner.MeetingBanner P props lang = ret (view props lang ts).
Proof.
  destruct (formatMeetingTime_returns P
              {| fo_meetingTimeText := meetingTimeText props;
                 fo_meetingDate := meetingDate props;
                 fo_locale := Some (effectiveLocale props lang);
                 fo_timeZone := timeZone props;
                 fo_hour12 := hour12 props |}) as [ts Hts].
  exists ts. unfold MeetingBanner.MeetingBanner, timeString. now rewrite Hts.
Qed.

(** C1 (amended). The configuration [{meetingTimeText: "5:30 PM",
    locale: "es-ES"}] starts in language "es", its main heading reads
    "Hora de encuentro: 5:30 PM", and it shows the three default Spanish
    policy lines, of which the first contains "5:30 PM" and the other two
    do not. *)
Theorem scenario_render :
  lang_code (initial_lang scenario_props) = "es"
  /\ exists tree,
       MeetingBanner.MeetingBanner P scenario_props (initial_lang scenario_props) = ret tree
       /\ heading_text tree = ["Hora de encuentro: 5:30 PM"]
       /\ shown_policy_lines tree =
          [ "Por favor, llegue al punto de encuentro a las 5:30 PM.";
            "Los clientes que no lleguen a tiempo perderán el tour y los derechos asociados.";
            "Los retrasos no son reembolsables ni reclamables." ]
       /\ map (fun line => includes line "5:30 PM") (shown_policy_lines tree)
          = [true; false; false].
Proof.
  split; [reflexivity|].
  exists (view scenario_props es "5:30 PM").
  split; [reflexivity|].
  rewrite heading_text_view, shown_policy_lines_view.
  repeat split.
Qed.

(** C4 (amended). When a list of policy lines with at least one line is
    supplied, the policy paragraph shows exactly those lines, in order, in
    either language state; no default policy line is shown. *)
Theorem explicit_policy_lines_shown
    (props : MeetingBannerProps) (lang : Lang) (lines : list string) :
  policyLines props = Some lines ->
  lines <> [] ->
  exists tree,
    MeetingBanner.MeetingBanner P props lang = ret tree
    /\ shown_policy_lines tree = lines.
Proof.
  intros Hlines Hne.
  destruct (MeetingBanner_renders props lang) as (ts & _ & Hr).
  exists (view props lang ts). split; [exact Hr|].
  rewrite shown_policy_lines_view. unfold policy. rewrite Hlines.
  destruct lines; [now elim Hne | reflexivity].
Qed.

(** C5 (amended). While the map section is shown ([showMap] not false):
    without a key, or with the empty key, the page has the route link and no
    frame; with a non-empty key it has the embedded frame, whose URL carries
    the key, the origin, the destination and the walking mode, and no link.
    With [showMap] false it has neither. *)
Theorem map_section_frame_or_link (props : MeetingBannerProps) (lang : Lang) :
  exists tree,
    MeetingBanner.MeetingBanner P props lang = ret tree
    /\ (dflt true (showMap props) = true ->
        truthy_opt (googleMapsApiKey props) = false ->
        frames tree = []
        /\ exists link,
             links tree = [link]
             /\ attr "href" link =
                Some (route_url (dflt default_origin (origin props))
                        (dflt default_destination (destination props))))
    /\ (forall key,
          dflt true (showMap props) = true ->
          googleMapsApiKey props = Some key ->
          key <> "" ->
          links tree = []
          /\ exists frame src,
               frames tree = [frame]
               /\ attr "src" frame = Some src
               /\ src = embed_url key (dflt default_origin (origin props))
                          (dflt default_destination (destination props))
               /\ includes src ("key=" ++ encodeURIComponent key) = true
               /\ includes src
                    ("origin="
                       ++ encodeURIComponent (dflt default_origin (origin props))) = true
               /\ includes src
                    ("destination="
                       ++ encodeURIComponent
                            (dflt default_destination (destination props))) = true
               /\ includes src "&mode=walking" = true)
    /\ (dflt true (showMap props) = false -> frames tree = [] /\ links tree = []).
Proof.
  destruct (MeetingBanner_renders props lang) as (ts & _ & Hr).
  exists (view props lang ts). split; [exact Hr|].
  rewrite frames_view, links_view.
  split; [|split].
  - intros Hshow Hkey. rewrite Hshow, Hkey. cbn [andb negb].
    split; [reflexivity|]. eexists. split; reflexivity.
  - intros key Hshow Hkey Hne. rewrite Hshow, Hkey.
    destruct key as [|c k]; [now elim Hne|].
    cbn [andb negb truthy_opt truthy_string or_else].
    split; [reflexivity|]. eexists. eexists.
    split; [reflexivity|]. split; [reflexivity|]. split; [reflexivity|].
    apply embed_url_parts.
  - intros Hshow. now rewrite Hshow.
Qed.

(** C6. Two presses of the language toggle bring the language state back,
    and with it the title, the label of the location link, the time string,
    the policy lines and the whole page; one press does change the state. *)
Theorem toggle_twice_restores (props : MeetingBannerProps) (lang : Lang) :
  toggle lang <> lang
  /\ toggle (toggle lang) = lang
  /\ (forall geo geo',
        fst (click props geo' ToggleLanguage (fst (click props geo ToggleLanguage lang)))
        = lang)
  /\ title props (toggle (toggle lang)) = title props lang
  /\ ctaLabel props (toggle (toggle lang)) = ctaLabel props lang
  /\ timeString P props (toggle (toggle lang)) = timeString P props lang
  /\ (forall ts, policy props (toggle (toggle lang)) ts = policy props lang ts)
  /\ MeetingBanner.MeetingBanner P props (toggle (toggle lang))
     = MeetingBanner.MeetingBanner P props lang.
Proof.
  assert (Hinv : toggle (toggle lang) = lang) by now destruct lang.
  split; [now destruct lang|].
  cbn [click fst]. rewrite Hinv. repeat split.
Qed.

(** C10 (amended). In the Spanish state the formatter receives "es-ES"
    whatever locale is configured; in the English state it receives the
    configured locale as it is when that is a non-empty string, and "en-US"
    when no locale is configured or the configured one is the empty string. *)
Theorem effectiveLocale_by_language (props : MeetingBannerProps) :
  effectiveLocale props es = "es-ES"
  /\ (forall l, locale props = Some l -> l <> "" -> effectiveLocale props en = l)
  /\ (truthy_opt (locale props) = false -> effectiveLocale props en = "en-US")
  /\ (forall lang,
        timeString P props lang =
        formatMeetingTime P
          {| fo_meetingTimeText := meetingTimeText props;
             fo_meetingDate := meetingDate props;
             fo_locale := Some (effectiveLocale props lang);
             fo_timeZone := timeZone props;
             fo_hour12 := hour12 props |}).
Proof.
  unfold effectiveLocale. cbn [Lang_eqb]. repeat split.
  - intros l -> Hne. destruct l; [now elim Hne | reflexivity].
  - destruct (locale props) as [[|c l]|]; cbn; congruence.
Qed.

End Banner.

(** ** The entry module *)

Section Bootstrap.
Import JS Host VDom MeetingBanner Main.

Variable P : Platform.

Lemma has_id_true (i : string) (e : DomElement) :
  has_id i e = true <-> dom_id e = Some i.
Proof.
  unfold has_id. destruct (dom_id e) as [j|].
  - rewrite String.eqb_eq. split; congruence.
  - split; discriminate.
Qed.

Lemma getElementById_none (document : DomElement) (i : string) :
  Forall (fun e => dom_id e <> Some i) (elements document) ->
  getElementById document i = None.
Proof.
  unfold getElementById. induction 1 as [|e l He _ IH]; [reflexivity|].
  cbn [find]. destruct (has_id i e) eqn:E; [|exact IH].
  apply has_id_true in E. contradiction.
Qed.

Lemma getElementById_some (document : DomElement) (i : string) :
  Exists (fun e => dom_id e = Some i) (elements document) ->
  exists e, getElementById document i = Some e
            /\ In e (elements document) /\ dom_id e = Some i.
Proof.
  unfold getElementById. intros Hex.
  destruct (find (has_id i) (elements document)) as [e|] eqn:E.
  - exists e. apply find_some in E as [Hin Hid].
    apply has_id_true in Hid. auto.
  - apply Exists_exists in Hex as (e & Hin & Hid).
    apply (find_none _ _ E) in Hin. apply has_id_true in Hid. congruence.
Qed.

(** C9. If no element of the page has the id [root], the entry module
    throws and performs no render; if one has, the banner is rendered into
    it, and the page then shows the banner of the configured time. *)
Theorem main_needs_root_element (document : DomElement) (log : list Effect) :
  (Forall (fun e => dom_id e <> Some "root") (elements document) ->
   main document log = (log, throw (Error "Root element #root not found")))
  /\ (Exists (fun e => dom_id e = Some "root") (elements document) ->
      exists rootEl tree,
        In rootEl (elements document)
        /\ dom_id rootEl = Some "root"
        /\ main document log = ((log ++ [RenderBanner rootEl app_props])%list, ret tt)
        /\ first_output P (RenderBanner rootEl app_props) = ret tree
        /\ heading_text tree = ["Hora de encuentro: 5:30 PM"]).
Proof.
  split.
  - intros Hno. unfold main. now rewrite (getElementById_none _ _ Hno).
  - intros Hex. destruct (getElementById_some _ _ Hex) as (rootEl & Hget & Hin & Hid).
    exists rootEl, (view app_props es "5:30 PM").
    unfold main. rewrite Hget.
    split; [exact Hin|]. split; [exact Hid|].
    split; [reflexivity|]. split; [reflexivity|].
    now rewrite heading_text_view.
Qed.

End Bootstrap.

(** ** Runs on the sample platform *)

Section Runs.
Import JS Host VDom MeetingBanner Main SamplePlatform.

(** In the scenario two of the three policy lines do not mention the time. *)
Lemma scenario_policy_lines_counterexample :
  exists tree,
    MeetingBanner.MeetingBanner sample scenario_props (initial_lang scenario_props) = ret tree
    /\ nth_error (shown_policy_lines tree) 1
       = Some "Los clientes que no lleguen a tiempo perderán el tour y los derechos asociados."
    /\ ~ Forall (fun line => includes line "5:30 PM" = true) (shown_policy_lines tree).
Proof.
  exists (view scenario_props es "5:30 PM").
  split; [reflexivity|]. rewrite shown_policy_lines_view.
  split; [reflexivity|].
  intros Hall. inversion Hall as [|? ? _ Hrest]. inversion Hrest as [|? ? Hsecond _].
  discriminate Hsecond.
Qed.

Lemma explicit_policy_lines_shown_witness :
  exists tree,
    MeetingBanner.MeetingBanner sample
      (set_policyLines (Some ["Be on time."; "No refunds."]) scenario_props) en = ret tree
    /\ shown_policy_lines tree = ["Be on time."; "No refunds."].
Proof.
  apply (explicit_policy_lines_shown sample
           (set_policyLines (Some ["Be on time."; "No refunds."]) scenario_props) en
           ["Be on time."; "No refunds."] eq_refl).
  discriminate.
Defined.

(** A supplied list without lines is not shown: the default policy is. *)
Lemma empty_policy_lines_counterexample :
  policyLines (set_policyLines (Some []) scenario_props) = Some []
  /\ exists tree,
       MeetingBanner.MeetingBanner sample (set_policyLines (Some []) scenario_props) es
       = ret tree
       /\ shown_policy_lines tree = defaultPolicyEs "5:30 PM"
       /\ shown_policy_lines tree <> [].
Proof.
  split; [reflexivity|].
  exists (view (set_policyLines (Some []) scenario_props) es "5:30 PM").
  split; [reflexivity|]. rewrite shown_policy_lines_view.
  split; [reflexivity | discriminate].
Qed.

Lemma map_section_frame_or_link_witness :
  (exists tree,
     MeetingBanner.MeetingBanner sample no_props en = ret tree
     /\ frames tree = []
     /\ exists link,
          links tree = [link]
          /\ attr "href" link = Some (route_url default_origin default_destination))
  /\ (exists tree,
        MeetingBanner.MeetingBanner sample (set_googleMapsApiKey (Some "KEY") no_props) en
        = ret tree
        /\ links tree = []
        /\ exists frame src,
             frames tree = [frame]
             /\ attr "src" frame = Some src
             /\ src = embed_url "KEY" default_origin default_destination
             /\ includes src "key=KEY" = true
             /\ includes src ("origin=" ++ encodeURIComponent default_origin) = true
             /\ includes src ("destination=" ++ encodeURIComponent default_destination)
                = true
             /\ includes src "&mode=walking" = true)
  /\ (exists tree,
        MeetingBanner.MeetingBanner sample (set_showMap (Some false) no_props) en = ret tree
        /\ frames tree = [] /\ links tree = []).
Proof.
  split; [|split].
  - destruct (map_section_frame_or_link sample no_props en)
      as (tree & Hr & Hlink & _ & _).
    exists tree. split; [exact Hr|]. apply Hlink; reflexivity.
  - destruct (map_section_frame_or_link sample
                (set_googleMapsApiKey (Some "KEY") no_props) en)
      as (tree & Hr & _ & Hframe & _).
    exists tree. split; [exact Hr|].
    apply (Hframe "KEY"); [reflexivity | reflexivity | discriminate].
  - destruct (map_section_frame_or_link sample (set_showMap (Some false) no_props) en)
      as (tree & Hr & _ & _ & Hnone).
    exists tree. split; [exact Hr|]. apply Hnone. reflexivity.
Defined.

(** With the map section switched off and no key there is no link. *)
Lemma hidden_map_counterexample :
  googleMapsApiKey (set_showMap (Some false) no_props) = None
  /\ exists tree,
       MeetingBanner.MeetingBanner sample (set_showMap (Some false) no_props) en = ret tree
       /\ links tree = []
       /\ frames tree = [].
Proof.
  split; [reflexivity|].
  exists (view (set_showMap (Some false) no_props) en "5:30 PM").
  split; [reflexivity|]. rewrite links_view, frames_view. split; reflexivity.
Qed.

(** The link opened when no position is to be had does not carry the
    configured origin. *)
Lemma fallback_link_counterexample :
  wo_url (start_route no_props Refused)
  = "https://www.google.com/maps/dir/?api=1&origin=Current+Location&destination=Muelle%20P%C3%BAblico%2C%20Puerto%20Jim%C3%A9nez%2C%20Puntarenas%2C%20Costa%20Rica&travelmode=walking"
  /\ encodeURIComponent (dflt default_origin (origin no_props))
     = "Corcovado%20Hiking%20Tours%2C%20Puerto%20Jim%C3%A9nez%2C%20Puntarenas%2C%20Costa%20Rica"
  /\ includes (wo_url (start_route no_props Refused))
       (encodeURIComponent (dflt default_origin (origin no_props))) = false
  /\ includes (wo_url (start_route no_props NotSupported))
       (encodeURIComponent (dflt default_origin (origin no_props))) = false.
Proof.
  repeat split; vm_compute; reflexivity.
Qed.

Lemma main_needs_root_element_witness :
  main (Dom "html" None [Dom "body" None [Dom "div" (Some "app") []]]) []
  = ([], throw (Error "Root element #root not found"))
  /\ exists rootEl tree,
       In rootEl (elements (Dom "html" None [Dom "body" None [Dom "div" (Some "root") []]]))
       /\ dom_id rootEl = Some "root"
       /\ main (Dom "html" None [Dom "body" None [Dom "div" (Some "root") []]]) []
          = ([RenderBanner rootEl app_props], ret tt)
       /\ first_output sample (RenderBanner rootEl app_props) = ret tree
       /\ heading_text tree = ["Hora de encuentro: 5:30 PM"].
Proof.
  split.
  - apply (proj1 (main_needs_root_element sample
                    (Dom "html" None [Dom "body" None [Dom "div" (Some "app") []]]) [])).
    repeat constructor; discriminate.
  - apply (proj2 (main_needs_root_element sample
                    (Dom "html" None [Dom "body" None [Dom "div" (Some "root") []]]) [])).
    apply Exists_cons_tl, Exists_cons_tl, Exists_cons_hd. reflexivity.
Defined.

Lemma effectiveLocale_by_language_witness :
  effectiveLocale (set_locale (Some "fr-FR") no_props) en = "fr-FR"
  /\ effectiveLocale no_props en = "en-US".
Proof.
  split.
  - apply (proj1 (proj2 (effectiveLocale_by_language sample
                           (set_locale (Some "fr-FR") no_props))));
      [reflexivity | discriminate].
  - apply (proj1 (proj2 (proj2 (effectiveLocale_by_language sample no_props)))).
    reflexivity.
Defined.

(** A configured empty locale is not what the formatter receives in the
    English state. *)
Lemma empty_locale_counterexample :
  locale (set_locale (Some "") no_props) = Some ""
  /\ effectiveLocale (set_locale (Some "") no_props) en = "en-US"
  /\ effectiveLocale (set_locale (Some "") no_props) en <> "".
Proof.
  repeat split. discriminate.
Qed.

(** English text around a time in the Spanish format: the configured locale
    is "es-ES" and the reader has switched to English. *)
Example english_text_spanish_time :
  title (set_meetingDate (Some (OfString "1970-01-01T09:05:00.000Z"))
           (set_timeZone (Some "UTC") (set_locale (Some "es-ES") no_props)))
        (toggle es) = "Meeting Time"
  /\ timeString sample
       (set_meetingDate (Some (OfString "1970-01-01T09:05:00.000Z"))
          (set_timeZone (Some "UTC") (set_locale (Some "es-ES") no_props)))
       (toggle es) = ret "9:05"
  /\ timeString sample
       (set_meetingDate (Some (OfString "1970-01-01T09:05:00.000Z"))
          (set_timeZone (Some "UTC") (set_locale (Some "en-US") no_props)))
       en = ret "9:05 AM".
Proof.
  repeat split.
Qed.

End Runs.

(** ** Reading the route URLs back *)

Section QueryRoundTrip.
Import JS Host VDom MeetingBanner Reading.

Lemma all_chars_weaken (p q : ascii -> bool) (s : string) :
  (forall c, p c = true -> q c = true) ->
  all_chars p s = true -> all_chars q s = true.
Proof.
  intros Hpq. induction s as [|c s IH]; [reflexivity|].
  cbn [all_chars]. rewrite !andb_true_iff. intros [Hc Hs]. auto.
Qed.

Lemma lacks_app (c : ascii) (a b : string) :
  lacks c (a ++ b) = lacks c a && lacks c b.
Proof.
  apply all_chars_app.
Qed.

Lemma url_safe_not_delimiter (c : ascii) :
  url_safe c = true ->
  negb (Ascii.eqb c "&") = true /\ negb (Ascii.eqb c "=") = true
  /\ negb (Ascii.eqb c "?") = true.
Proof.
  destruct c as [[] [] [] [] [] [] [] []]; vm_compute; intros H;
    repeat split; discriminate.
Qed.

(** An encoded component has none of the characters that structure a query. *)
Lemma encodeURIComponent_lacks (s : string) :
  lacks "&" (encodeURIComponent s) = true
  /\ lacks "=" (encodeURIComponent s) = true
  /\ lacks "?" (encodeURIComponent s) = true.
Proof.
  pose proof (encodeURIComponent_safe s) as Hs.
  repeat split; (eapply all_chars_weaken; [|exact Hs]);
    intros c Hc; apply url_safe_not_delimiter in Hc; tauto.
Qed.

Lemma unescaped_not_percent (c : ascii) :
  is_unescaped c = true -> Ascii.eqb c "%" = false.
Proof.
  destruct c as [[] [] [] [] [] [] [] []]; vm_compute; congruence.
Qed.

Lemma decode_percent_encode (c : ascii) (r : string) :
  decodeURIComponent (percent_encode c ++ r) = option_map (String c) (decodeURIComponent r).
Proof.
  destruct c as [[] [] [] [] [] [] [] []]; cbn; destruct (decodeURIComponent r); reflexivity.
Qed.

(** Decoding undoes encoding. *)
Lemma decode_encode (s : string) :
  decodeURIComponent (encodeURIComponent s) = Some s.
Proof.
  induction s as [|c s IH]; [reflexivity|].
  cbn [encodeURIComponent]. destruct (is_unescaped c) eqn:E.
  - change (String c "" ++ encodeURIComponent s) with (String c (encodeURIComponent s)).
    cbn [decodeURIComponent]. rewrite (unescaped_not_percent c E), IH. reflexivity.
  - rewrite decode_percent_encode, IH. reflexivity.
Qed.

Lemma cut_at (c : ascii) (a b : string) :
  lacks c a = true -> cut c (a ++ String c b) = (a, Some b).
Proof.
  unfold lacks. induction a as [|x a IH]; cbn [all_chars append cut].
  - intros _. now rewrite Ascii.eqb_refl.
  - rewrite andb_true_iff, negb_true_iff. intros [Hx Ha].
    rewrite Hx, (IH Ha). reflexivity.
Qed.

Lemma split_whole (c : ascii) (a : string) :
  lacks c a = true -> split c a = [a].
Proof.
  unfold lacks. induction a as [|x a IH]; cbn [all_chars split]; [reflexivity|].
  rewrite andb_true_iff, negb_true_iff. intros [Hx Ha].
  rewrite Hx, (IH Ha). reflexivity.
Qed.

Lemma split_at (c : ascii) (a b : string) :
  lacks c a = true -> split c (a ++ String c b) = a :: split c b.
Proof.
  unfold lacks. induction a as [|x a IH]; cbn [all_chars append split].
  - intros _. now rewrite Ascii.eqb_refl.
  - rewrite andb_true_iff, negb_true_iff. intros [Hx Ha].
    rewrite Hx, (IH Ha). reflexivity.
Qed.

Lemma append_nil_r (s : string) : s ++ "" = s.
Proof.
  induction s as [|c s IH]; cbn; [reflexivity | now rewrite IH].
Qed.

Lemma split_write_query (params : list (string * string)) :
  params <> [] ->
  forallb writable params = true ->
  split "&" (write_query params) = map (fun kv => fst kv ++ "=" ++ snd kv) params.
Proof.
  unfold write_query.
  induction params as [|kv rest IH]; [congruence|]. intros _ Hall.
  cbn [forallb] in Hall. apply andb_true_iff in Hall as [Hkv Hrest].
  unfold writable in Hkv. rewrite !andb_true_iff in Hkv. destruct Hkv as [[Hk _] Hv].
  assert (Hpart : lacks "&" (fst kv ++ "=" ++ snd kv) = true).
  { rewrite !lacks_app, Hk, Hv. reflexivity. }
  destruct rest as [|kv' rest'].
  - cbn [map String.concat]. now apply split_whole.
  - cbn [map String.concat] in *.
    change ("&" ++ ?x) with (String "&" x).
    rewrite split_at by exact Hpart.
    f_equal. apply IH; [discriminate | exact Hrest].
Qed.

(** Reading a written query gives the parameters back. *)
Lemma query_params_written (base : string) (params : list (string * string)) :
  lacks "?" base = true ->
  params <> [] ->
  forallb writable params = true ->
  query_params (base ++ "?" ++ write_query params) = params.
Proof.
  intros Hbase Hne Hall. unfold query_params.
  change ("?" ++ write_query params) with (String "?" (write_query params)).
  rewrite cut_at by exact Hbase.
  rewrite split_write_query by assumption.
  rewrite map_map. clear Hne.
  induction params as [|kv rest IH]; [reflexivity|].
  cbn [forallb] in Hall. apply andb_true_iff in Hall as [Hkv Hrest].
  unfold writable in Hkv. rewrite !andb_true_iff in Hkv. destruct Hkv as [[_ Hk] _].
  cbn [map]. rewrite (IH Hrest).
  change ("=" ++ snd kv) with (String "=" (snd kv)).
  rewrite cut_at by exact Hk. now destruct kv.
Qed.

Ltac as_written base params :=
  let H := fresh "Hurl" in
  match goal with
  | |- context [query_params ?u] =>
      assert (H : u = base ++ "?" ++ write_query params)
        by (unfold embed_url, route_url, position_url, fallback_url, write_query;
            cbn [map String.concat fst snd]; rewrite ?append_assoc; reflexivity);
      rewrite H; clear H
  end.

Ltac writable_params :=
  cbn [forallb]; unfold writable; cbn [fst snd];
  rewrite ?lacks_app;
  repeat match goal with
         | |- context [lacks ?c (encodeURIComponent ?s)] =>
             first [ rewrite (proj1 (encodeURIComponent_lacks s))
                   | rewrite (proj1 (proj2 (encodeURIComponent_lacks s)))
                   | rewrite (proj2 (proj2 (encodeURIComponent_lacks s))) ]
         end.

(** X1. The query of the route link reads back as the four parameters the
    component wrote, and the decoded origin and destination are the
    configured strings, whatever characters they hold. *)
Theorem route_link_read_back (o d : string) :
  decoded_params (route_url o d) =
  [ ("api", Some "1"); ("origin", Some o); ("destination", Some d);
    ("travelmode", Some "walking") ].
Proof.
  unfold decoded_params.
  as_written "https://www.google.com/maps/dir/"
             [ ("api", "1"); ("origin", encodeURIComponent o);
               ("destination", encodeURIComponent d); ("travelmode", "walking") ].
  rewrite query_params_written; [| reflexivity | discriminate | writable_params; reflexivity].
  cbn [map fst snd]. rewrite !decode_encode. reflexivity.
Qed.

(** X2. The query of the embedded frame reads back as key, origin,
    destination and mode, each decoded value being the configured string. *)
Theorem embed_frame_read_back (key o d : string) :
  decoded_params (embed_url key o d) =
  [ ("key", Some key); ("origin", Some o); ("destination", Some d);
    ("mode", Some "walking") ].
Proof.
  unfold decoded_params.
  as_written "https://www.google.com/maps/embed/v1/directions"
             [ ("key", encodeURIComponent key); ("origin", encodeURIComponent o);
               ("destination", encodeURIComponent d); ("mode", "walking") ].
  rewrite query_params_written; [| reflexivity | discriminate | writable_params; reflexivity].
  cbn [map fst snd]. rewrite !decode_encode. reflexivity.
Qed.

(** X3. Whatever the geolocation request answers, the URL the route button
    opens reads back as four parameters whose destination decodes to the
    configured destination (the default one when none is configured) and
    whose travel mode is walking. Its origin is [Current+Location] when
    there is no position, and the two coordinates joined by a comma when
    there is one. *)
Theorem start_route_read_back (props : MeetingBannerProps) :
  (forall geo,
     geo = Refused \/ geo = NotSupported ->
     decoded_params (wo_url (start_route props geo)) =
     [ ("api", Some "1"); ("origin", Some "Current+Location");
       ("destination", Some (dflt default_destination (destination props)));
       ("travelmode", Some "walking") ])
  /\ (forall latitude longitude,
        all_chars coordinate_char latitude = true ->
        all_chars coordinate_char longitude = true ->
        decoded_params (wo_url (start_route props (Located latitude longitude))) =
        [ ("api", Some "1"); ("origin", Some (latitude ++ "," ++ longitude));
          ("destination", Some (dflt default_destination (destination props)));
          ("travelmode", Some "walking") ]).
Proof.
  set (d := dflt default_destination (destination props)).
  assert (Hfallback :
            decoded_params (fallback_url d) =
            [ ("api", Some "1"); ("origin", Some "Current+Location");
              ("destination", Some d); ("travelmode", Some "walking") ]).
  { unfold decoded_params.
    as_written "https://www.google.com/maps/dir/"
               [ ("api", "1"); ("origin", "Current+Location");
                 ("destination", encodeURIComponent d); ("travelmode", "walking") ].
    rewrite query_params_written;
      [| reflexivity | discriminate | writable_params; reflexivity].
    cbn [map fst snd]. rewrite !decode_encode. reflexivity. }
  split.
  { intros geo [-> | ->]; exact Hfallback. }
  intros latitude longitude Hlat Hlon. cbn [start_route wo_url]. fold d.
  unfold decoded_params.
  as_written "https://www.google.com/maps/dir/"
             [ ("api", "1"); ("origin", latitude ++ "," ++ longitude);
               ("destination", encodeURIComponent d); ("travelmode", "walking") ].
  assert (Hamp : forall s, all_chars coordinate_char s = true -> lacks "&" s = true).
  { intros s. apply all_chars_weaken. intros c.
    destruct c as [[] [] [] [] [] [] [] []]; vm_compute; congruence. }
  rewrite query_params_written;
    [| reflexivity | discriminate
     | writable_params; rewrite (Hamp _ Hlat), (Hamp _ Hlon); reflexivity].
  cbn [map fst snd]. rewrite !decode_encode.
  assert (Hdec : forall s, all_chars coordinate_char s = true ->
                           forall r t, decodeURIComponent r = Some t ->
                                       decodeURIComponent (s ++ r) = Some (s ++ t)).
  { intros s. induction s as [|c s IH]; intros Hs r t Hr; [exact Hr|].
    cbn [all_chars] in Hs. apply andb_true_iff in Hs as [Hc Hs].
    cbn [append decodeURIComponent].
    assert (Hp : Ascii.eqb c "%" = false).
    { revert Hc. destruct c as [[] [] [] [] [] [] [] []]; vm_compute; congruence. }
    rewrite Hp, (IH Hs r t Hr). reflexivity. }
  rewrite (Hdec latitude Hlat ("," ++ longitude) ("," ++ longitude)).
  - reflexivity.
  - change ("," ++ longitude) with (String "," longitude).
    cbn [decodeURIComponent]. cbn [Ascii.eqb Bool.eqb].
    rewrite <- (append_nil_r longitude) at 1.
    rewrite (Hdec longitude Hlon "" "" eq_refl). now rewrite append_nil_r.
Qed.

End QueryRoundTrip.

(** ** The contents of the page *)

Section PageContents.
Import JS Host VDom MeetingBanner Reading.

(** A collector that passes through the plain elements of the page, such as
    [handlers] and [texts], gathers from the page what it gathers from the
    blocks. *)
Lemma collect_view {A : Type} (F : VNode -> list A)
    (props : MeetingBannerProps) (lang : Lang) (ts : string) :
  (forall tag attrs cs, F (el tag attrs cs) = flat_map F cs) ->
  F (view props lang ts) =
  (flat_map F (brand_block props)
   ++ flat_map F (location_block (paletteStyles (dflt teal (palette props)))
                    (dflt "Designated Meeting Point" (locationLabel props)))
   ++ F (primary_block (paletteStyles (dflt teal (palette props))) (title props lang) ts)
   ++ F (policy_block (paletteStyles (dflt teal (palette props))) (policy props lang ts))
   ++ flat_map F (when (dflt true (showMap props))
                    (map_block (paletteStyles (dflt teal (palette props))) lang
                       (googleMapsApiKey props)
                       (dflt default_origin (origin props))
                       (dflt default_destination (destination props))
                       (dflt true (openInNewTab props))))
   ++ F (client_route_block (paletteStyles (dflt teal (palette props))) lang)
   ++ flat_map F (when (dflt true (showLanguageToggle props))
                    (toggle_block (paletteStyles (dflt teal (palette props))) lang)))%list.
Proof.
  intros HF. unfold view.
  repeat first [rewrite HF | rewrite flat_map_app | progress cbn [flat_map]].
  rewrite ?app_nil_r, ?app_nil_l, <- ?app_assoc. reflexivity.
Qed.

Lemma handlers_el (tag : string) (attrs : list (string * string)) (cs : list VNode) :
  handlers (el tag attrs cs) = flat_map handlers cs.
Proof.
  reflexivity.
Qed.

Lemma texts_el (tag : string) (attrs : list (string * string)) (cs : list VNode) :
  texts (el tag attrs cs) = flat_map texts cs.
Proof.
  reflexivity.
Qed.

Lemma handlers_policy_spans (lines : list string) :
  flat_map handlers
    (map (fun line => el "span" [("className", "block")] [Text line]) lines) = [].
Proof.
  induction lines as [|l ls IH]; [reflexivity | exact IH].
Qed.

Lemma texts_policy_spans (lines : list string) :
  flat_map texts
    (map (fun line => el "span" [("className", "block")] [Text line]) lines)
  = filter truthy_string lines.
Proof.
  induction lines as [|l ls IH]; [reflexivity|].
  cbn [map flat_map filter]. rewrite IH.
  destruct l; reflexivity.
Qed.

Lemma handlers_view (props : MeetingBannerProps) (lang : Lang) (ts : string) :
  handlers (view props lang ts) =
  StartRoute :: (if dflt true (showLanguageToggle props) then [ToggleLanguage] else []).
Proof.
  rewrite (collect_view handlers) by exact handlers_el.
  assert (Hbrand : flat_map handlers (brand_block props) = []).
  { unfold brand_block, when.
    destruct (truthy_opt (logoSrc props)), (truthy_opt (brandName props)); reflexivity. }
  assert (Hloc : forall styles label, flat_map handlers (location_block styles label) = []).
  { intros styles label. unfold location_block, when.
    destruct (truthy_string label); reflexivity. }
  assert (Hpol : forall styles lines, handlers (policy_block styles lines) = []).
  { intros styles lines. unfold policy_block, policy_paragraph.
    repeat first [rewrite handlers_el | progress cbn [flat_map]].
    rewrite handlers_policy_spans. reflexivity. }
  assert (Hmap : forall styles key o d b,
             handlers (map_block styles lang key o d b) = []).
  { intros styles key o d b. unfold map_block. destruct (truthy_opt key); reflexivity. }
  rewrite Hbrand, Hloc, Hpol.
  destruct (dflt true (showMap props)), (dflt true (showLanguageToggle props));
    cbn [when flat_map]; rewrite ?Hmap; reflexivity.
Qed.

(** X4. Every page has the route button, in every configuration and
    language state, the hidden map section included; it has the language
    toggle exactly when [showLanguageToggle] is not false; it has no other
    control. *)
Theorem page_controls (P : Platform) (props : MeetingBannerProps) (lang : Lang) :
  exists tree,
    MeetingBanner.MeetingBanner P props lang = ret tree
    /\ handlers tree =
       StartRoute :: (if dflt true (showLanguageToggle props) then [ToggleLanguage] else []).
Proof.
  destruct (MeetingBanner_renders P props lang) as (ts & _ & Hr).
  exists (view props lang ts). split; [exact Hr | apply handlers_view].
Qed.

(** X5. With the toggle hidden no sequence of clicks on the controls of the
    page changes the language: it stays what the locale made it. With the
    toggle shown both languages can be reached. *)
Theorem language_reachability (P : Platform) (props : MeetingBannerProps) :
  (showLanguageToggle props = Some false ->
   forall lang, reachable P props lang -> lang = initial_lang props)
  /\ (dflt true (showLanguageToggle props) = true ->
      forall lang, reachable P props lang).
Proof.
  split.
  - intros Hhidden lang Hreach.
    induction Hreach as [|lang tree h geo _ IH Hrender Hin]; [reflexivity|].
    destruct (MeetingBanner_renders P props lang) as (ts & _ & Hr).
    rewrite Hr in Hrender. injection Hrender as <-.
    rewrite handlers_view, Hhidden in Hin. cbn in Hin.
    destruct Hin as [<-|[]]. exact IH.
  - intros Hshown lang.
    assert (Hflip : forall l, reachable P props l -> reachable P props (toggle l)).
    { intros l Hl.
      destruct (MeetingBanner_renders P props l) as (ts & _ & Hr).
      apply (reach_click P props l (view props l ts) ToggleLanguage Refused Hl Hr).
      rewrite handlers_view, Hshown. right; left; reflexivity. }
    pose proof (reach_initial P props) as H0.
    destruct lang, (initial_lang props); try exact H0;
      apply Hflip in H0; exact H0.
Qed.

(** X6. After an even number of presses of the toggle the language is what
    it was; after an odd number it is the other one. *)
Theorem presses_parity (n : nat) (lang : Lang) :
  presses n lang = if Nat.even n then lang else toggle lang.
Proof.
  unfold presses. induction n as [|n IH]; [reflexivity|].
  change (Nat.iter (S n) toggle lang) with (toggle (Nat.iter n toggle lang)).
  rewrite IH, Nat.even_succ, <- Nat.negb_even.
  destruct (Nat.even n), lang; reflexivity.
Qed.

End PageContents.

(** ** What the page shows *)

Section PageTexts.
Import JS Host VDom MeetingBanner Terms Reading.

Variable P : Platform.

Lemma title_not_empty (props : MeetingBannerProps) (lang : Lang) :
  truthy_string (title props lang) = true.
Proof.
  unfold title, or_else.
  destruct (titleText props) as [[|c t]|], (isEs lang); reflexivity.
Qed.

Lemma texts_view (props : MeetingBannerProps) (lang : Lang) (ts : string) :
  texts (view props lang ts) =
  ((if truthy_opt (brandName props) then [or_else (brandName props) ""] else [])
   ++ (if truthy_string (dflt "Designated Meeting Point" (locationLabel props))
       then [dflt "Designated Meeting Point" (locationLabel props)] else [])
   ++ [title props lang; ": "]
   ++ (if truthy_string ts then [ts] else [])
   ++ filter truthy_string (policy props lang ts)
   ++ ["Thank you for your punctuality and cooperation."]
   ++ (if dflt true (showMap props) && negb (truthy_opt (googleMapsApiKey props))
       then [ if isEs lang then "Ver ruta en Google Maps" else "View route in Google Maps";
              if isEs lang
              then "Ver ruta desde Corcovado Hiking Tours en Google Maps"
              else "View route from Corcovado Hiking Tours in Google Maps" ]
       else [])
   ++ [ if isEs lang then "Ruta desde su ubicación" else "Route from your location";
        if isEs lang then "Iniciar ruta" else "Start route" ]
   ++ (if dflt true (showLanguageToggle props)
       then [ if isEs lang then "ES" else "EN";
              if isEs lang then "Español" else "English" ]
       else []))%list.
Proof.
  rewrite (collect_view texts) by exact texts_el.
  assert (Hbrand : flat_map texts (brand_block props) =
                   if truthy_opt (brandName props) then [or_else (brandName props) ""] else []).
  { unfold brand_block, when.
    destruct (logoSrc props) as [[|c s]|], (brandName props) as [[|c' s']|]; reflexivity. }
  assert (Hloc : forall styles label,
             flat_map texts (location_block styles label) =
             if truthy_string label then [label] else []).
  { intros styles label. unfold location_block, when. destruct label; reflexivity. }
  assert (Hpol : forall styles lines,
             texts (policy_block styles lines) =
             (filter truthy_string lines
                ++ ["Thank you for your punctuality and cooperation."])%list).
  { intros styles lines. unfold policy_block, policy_paragraph.
    repeat first [rewrite texts_el | progress cbn [flat_map]].
    rewrite texts_policy_spans. cbn [texts truthy_string app]. now rewrite app_nil_r. }
  assert (Hprim : forall styles,
             texts (primary_block styles (title props lang) ts) =
             ([title props lang; ": "] ++ (if truthy_string ts then [ts] else []))%list).
  { intros styles. unfold primary_block, heading.
    repeat first [rewrite texts_el | progress cbn [flat_map]].
    cbn [texts]. rewrite title_not_empty.
    destruct ts; reflexivity. }
  assert (Hmap : forall styles,
             flat_map texts
               (when (dflt true (showMap props))
                  (map_block styles lang (googleMapsApiKey props)
                     (dflt default_origin (origin props))
                     (dflt default_destination (destination props))
                     (dflt true (openInNewTab props)))) =
             if dflt true (showMap props) && negb (truthy_opt (googleMapsApiKey props))
             then [ if isEs lang then "Ver ruta en Google Maps" else "View route in Google Maps";
                    if isEs lang
                    then "Ver ruta desde Corcovado Hiking Tours en Google Maps"
                    else "View route from Corcovado Hiking Tours in Google Maps" ]
             else []).
  { intros styles. unfold map_block.
    destruct (dflt true (showMap props)), (truthy_opt (googleMapsApiKey props)), lang;
      reflexivity. }
  assert (Hclient : forall styles,
             texts (client_route_block styles lang) =
             [ if isEs lang then "Ruta desde su ubicación" else "Route from your location";
               if isEs lang then "Iniciar ruta" else "Start route" ]).
  { intros styles. destruct lang; reflexivity. }
  assert (Htoggle : forall styles,
             flat_map texts
               (when (dflt true (showLanguageToggle props)) (toggle_block styles lang)) =
             if dflt true (showLanguageToggle props)
             then [ if isEs lang then "ES" else "EN";
                    if isEs lang then "Español" else "English" ]
             else []).
  { intros styles. destruct (dflt true (showLanguageToggle props)), lang; reflexivity. }
  rewrite Hbrand, Hloc, Hpol, Hprim, Hmap, Hclient, Htoggle.
  rewrite <- !app_assoc. reflexivity.
Qed.

(** X7. The text nodes of the page, in reading order: the brand name if
    there is one, the location label unless it is empty, the title, a
    colon, the time unless it is empty, the policy lines that are not
    empty, a closing sentence that is English in both language states, the
    two labels of the route link when the link is there, the two labels of
    the route button, and the two labels of the toggle when it is shown. *)
Theorem page_texts (props : MeetingBannerProps) (lang : Lang) :
  exists tree ts,
    MeetingBanner.MeetingBanner P props lang = ret tree
    /\ timeString P props lang = ret ts
    /\ texts tree =
       ((if truthy_opt (brandName props) then [or_else (brandName props) ""] else [])
        ++ (if truthy_string (dflt "Designated Meeting Point" (locationLabel props))
            then [dflt "Designated Meeting Point" (locationLabel props)] else [])
        ++ [title props lang; ": "]
        ++ (if truthy_string ts then [ts] else [])
        ++ filter truthy_string (policy props lang ts)
        ++ ["Thank you for your punctuality and cooperation."]
        ++ (if dflt true (showMap props) && negb (truthy_opt (googleMapsApiKey props))
            then [ if isEs lang then "Ver ruta en Google Maps" else "View route in Google Maps";
                   if isEs lang
                   then "Ver ruta desde Corcovado Hiking Tours en Google Maps"
                   else "View route from Corcovado Hiking Tours in Google Maps" ]
            else [])
        ++ [ if isEs lang then "Ruta desde su ubicación" else "Route from your location";
             if isEs lang then "Iniciar ruta" else "Start route" ]
        ++ (if dflt true (showLanguageToggle props)
            then [ if isEs lang then "ES" else "EN";
                   if isEs lang then "Español" else "English" ]
            else []))%list.
Proof.
  destruct (MeetingBanner_renders P props lang) as (ts & Hts & Hr).
  exists (view props lang ts), ts.
  split; [exact Hr|]. split; [exact Hts|]. apply texts_view.
Qed.

End PageTexts.

(** ** Links, images and the time on the page *)

Section PageDetails.
Import JS Host VDom MeetingBanner Terms Reading.

Variable P : Platform.

(** X8. [openInNewTab] governs the route link and the route button alike:
    unless it is false the link has [target="_blank"] together with
    [rel="noopener noreferrer"] and the button opens its URL in [_blank];
    when it is false the link has neither attribute and the button opens
    its URL in [_self]. *)
Theorem new_tab_policy (props : MeetingBannerProps) (lang : Lang) :
  exists tree,
    MeetingBanner.MeetingBanner P props lang = ret tree
    /\ map (fun link => (attr "target" link, attr "rel" link)) (links tree) =
       (if dflt true (showMap props) && negb (truthy_opt (googleMapsApiKey props))
        then [ if dflt true (openInNewTab props)
               then (Some "_blank", Some "noopener noreferrer")
               else (None, None) ]
        else [])
    /\ forall geo,
         wo_target (start_route props geo) =
         if dflt true (openInNewTab props) then "_blank" else "_self".
Proof.
  destruct (MeetingBanner_renders P props lang) as (ts & _ & Hr).
  exists (view props lang ts). split; [exact Hr|]. split.
  - rewrite links_view.
    destruct (dflt true (showMap props) && negb (truthy_opt (googleMapsApiKey props)));
      [|reflexivity].
    destruct (dflt true (openInNewTab props)); reflexivity.
  - intros geo. now destruct geo.
Qed.

Lemma select_img_policy_spans (lines : list string) :
  flat_map (select "img")
    (map (fun line => el "span" [("className", "block")] [Text line]) lines) = [].
Proof.
  induction lines as [|l ls IH]; [reflexivity | exact IH].
Qed.

Lemma select_img_view (props : MeetingBannerProps) (lang : Lang) (ts : string) :
  select "img" (view props lang ts) =
  if truthy_opt (logoSrc props)
  then [ el "img" [("src", or_else (logoSrc props) "");
                   ("alt", or_else (brandName props) "Brand logo");
                   ("className", "h-8 w-8 rounded-md object-cover")] [] ]
  else [].
Proof.
  unfold view.
  repeat first [rewrite select_el | rewrite flat_map_app | progress cbn [flat_map]].
  cbn [String.eqb Ascii.eqb Bool.eqb].
  assert (Hbrand : flat_map (select "img") (brand_block props) =
                   if truthy_opt (logoSrc props)
                   then [ el "img" [("src", or_else (logoSrc props) "");
                                    ("alt", or_else (brandName props) "Brand logo");
                                    ("className", "h-8 w-8 rounded-md object-cover")] [] ]
                   else []).
  { unfold brand_block, when.
    destruct (truthy_opt (logoSrc props)), (truthy_opt (brandName props)); reflexivity. }
  assert (Hloc : forall styles label,
             flat_map (select "img") (location_block styles label) = []).
  { intros styles label. unfold location_block, when.
    destruct (truthy_string label); reflexivity. }
  assert (Hpol : forall styles lines, select "img" (policy_block styles lines) = []).
  { intros styles lines. unfold policy_block, policy_paragraph.
    repeat first [rewrite select_el | progress cbn [flat_map]].
    rewrite select_img_policy_spans. reflexivity. }
  assert (Hmap : forall styles,
             flat_map (select "img")
               (when (dflt true (showMap props))
                  (map_block styles lang (googleMapsApiKey props)
                     (dflt default_origin (origin props))
                     (dflt default_destination (destination props))
                     (dflt true (openInNewTab props)))) = []).
  { intros styles. unfold map_block.
    destruct (dflt true (showMap props)), (truthy_opt (googleMapsApiKey props));
      reflexivity. }
  assert (Htoggle : forall styles,
             flat_map (select "img")
               (when (dflt true (showLanguageToggle props)) (toggle_block styles lang)) = []).
  { intros styles. destruct (dflt true (showLanguageToggle props)); reflexivity. }
  rewrite Hbrand, Hloc, Hpol, Hmap, Htoggle.
  destruct (truthy_opt (logoSrc props)); reflexivity.
Qed.

(** X9. The page has an image exactly when a non-empty [logoSrc] is
    configured: the logo, whose alternative text is the brand name, or
    "Brand logo" when no brand name (or an empty one) is configured. *)
Theorem brand_logo (props : MeetingBannerProps) (lang : Lang) :
  exists tree,
    MeetingBanner.MeetingBanner P props lang = ret tree
    /\ images tree =
       match logoSrc props with
       | Some (String c s) =>
           [ (Some (String c s),
              Some (match brandName props with
                    | Some (String c' s') => String c' s'
                    | _ => "Brand logo"
                    end)) ]
       | _ => []
       end.
Proof.
  destruct (MeetingBanner_renders P props lang) as (ts & _ & Hr).
  exists (view props lang ts). split; [exact Hr|].
  unfold images. rewrite select_img_view.
  destruct (logoSrc props) as [[|c s]|]; try reflexivity.
  destruct (brandName props) as [[|c' s']|]; reflexivity.
Qed.

(** X10. When no policy lines are supplied (or an empty list is), the
    page shows three policy lines in either language state, and the first
    of them mentions the very time string the heading shows. *)
Theorem default_policy_mentions_heading_time (props : MeetingBannerProps) (lang : Lang) :
  policyLines props = None \/ policyLines props = Some [] ->
  exists tree ts first second third,
    MeetingBanner.MeetingBanner P props lang = ret tree
    /\ heading_text tree = [title props lang ++ ": " ++ ts]
    /\ shown_policy_lines tree = [first; second; third]
    /\ includes first ts = true.
Proof.
  intros Hnone.
  destruct (MeetingBanner_renders P props lang) as (ts & _ & Hr).
  assert (Hpol : policy props lang ts =
                 if isEs lang then defaultPolicyEs ts else defaultPolicyEn ts).
  { unfold policy. now destruct Hnone as [-> | ->]. }
  exists (view props lang ts), ts.
  destruct (isEs lang) eqn:E.
  - exists ("Por favor, llegue al punto de encuentro a las " ++ ts ++ "."),
      "Los clientes que no lleguen a tiempo perderán el tour y los derechos asociados.",
      "Los retrasos no son reembolsables ni reclamables.".
    split; [exact Hr|]. split; [apply heading_text_view|].
    split; [now rewrite shown_policy_lines_view, Hpol|].
    apply includes_spec. now exists "Por favor, llegue al punto de encuentro a las ", ".".
  - exists ("Please arrive at the designated meeting point by " ++ ts ++ "."),
      "Guests who do not arrive on time will forfeit the tour and all associated rights.",
      "Late arrivals are not eligible for refunds or claims.".
    split; [exact Hr|]. split; [apply heading_text_view|].
    split; [now rewrite shown_policy_lines_view, Hpol|].
    apply includes_spec. now exists "Please arrive at the designated meeting point by ", ".".
Qed.

(** X11. A non-empty [titleText] is the title of the heading in both
    language states: the toggle does not translate it. *)
Theorem title_override_in_both_languages
    (props : MeetingBannerProps) (t : string) (lang : Lang) :
  titleText props = Some t ->
  t <> "" ->
  exists tree ts,
    MeetingBanner.MeetingBanner P props lang = ret tree
    /\ timeString P props lang = ret ts
    /\ heading_text tree = [t ++ ": " ++ ts].
Proof.
  intros Ht Hne.
  destruct (MeetingBanner_renders P props lang) as (ts & Hts & Hr).
  exists (view props lang ts), ts.
  split; [exact Hr|]. split; [exact Hts|].
  rewrite heading_text_view. unfold title. rewrite Ht.
  destruct t; [now elim Hne | reflexivity].
Qed.

(** X12. On the first render a configured locale that begins with "es" in
    any case reaches the formatter as "es-ES", its region dropped; any
    other non-empty locale reaches it unchanged; with no locale, or the
    empty one, the formatter gets "en-US". *)
Theorem first_render_locale (props : MeetingBannerProps) :
  (forall l, locale props = Some l -> spanish_prefix l ->
             effectiveLocale props (initial_lang props) = "es-ES")
  /\ (forall l, locale props = Some l -> ~ spanish_prefix l -> l <> "" ->
                effectiveLocale props (initial_lang props) = l)
  /\ (truthy_opt (locale props) = false ->
      effectiveLocale props (initial_lang props) = "en-US").
Proof.
  unfold initial_lang, effectiveLocale. repeat split.
  - intros l Hl Hsp. rewrite Hl.
    assert (Hor : or_else (Some l) "" = l)
      by (destruct Hsp as (? & ? & ? & -> & _); reflexivity).
    rewrite Hor. apply startsWith_es in Hsp. now rewrite Hsp.
  - intros l Hl Hnsp Hne. rewrite Hl.
    assert (Hor : forall d, or_else (Some l) d = l) by (now destruct l).
    rewrite !Hor.
    destruct (startsWith (toLowerCase l) "es") eqn:E; [|reflexivity].
    apply startsWith_es in E. contradiction.
  - intros Hfalsy.
    assert (Hor : forall d, or_else (locale props) d = d).
    { intros d. unfold or_else. destruct (locale props) as [[|c l]|]; try reflexivity.
      discriminate Hfalsy. }
    rewrite !Hor. reflexivity.
Qed.

(** X13. The locale the component gives the formatter is never empty, in
    any configuration and language state: the formatter never falls back
    on the default locale of the platform. *)
Theorem component_locale_never_empty (props : MeetingBannerProps) (lang : Lang) :
  effectiveLocale props lang <> ""
  /\ or_undefined (Some (effectiveLocale props lang)) = Some (effectiveLocale props lang).
Proof.
  assert (Hne : effectiveLocale props lang <> "").
  { unfold effectiveLocale. destruct lang; cbn [Lang_eqb]; [discriminate|].
    unfold or_else. destruct (locale props) as [[|c l]|]; discriminate. }
  split; [exact Hne|].
  destruct (effectiveLocale props lang); [now elim Hne | reflexivity].
Qed.

(** X14. With a non-empty time text, or with no date, the page does not
    depend on the platform: [Intl] and [Date] are not consulted, and the
    time shown is the time text, or "5:30 PM". *)
Theorem render_without_platform (props : MeetingBannerProps) (lang : Lang) :
  truthy_opt (meetingTimeText props) = true \/ meetingDate props = None ->
  forall P' : Platform,
    MeetingBanner.MeetingBanner P props lang = MeetingBanner.MeetingBanner P' props lang
    /\ timeString P props lang =
       ret (if truthy_opt (meetingTimeText props)
            then or_else (meetingTimeText props) ""
            else "5:30 PM").
Proof.
  intros Hcase P'.
  assert (H : forall Q, timeString Q props lang =
                        ret (if truthy_opt (meetingTimeText props)
                             then or_else (meetingTimeText props) ""
                             else "5:30 PM")).
  { intros Q. unfold timeString, formatMeetingTime. cbn [fo_meetingTimeText fo_meetingDate].
    destruct (meetingTimeText props) as [[|c t]|]; cbn; try reflexivity;
      destruct Hcase as [Hc | ->]; try discriminate Hc; reflexivity. }
  split; [|apply H].
  unfold MeetingBanner.MeetingBanner. now rewrite (H P), (H P').
Qed.

(** X15. If the platform never formats a time as the empty text, the
    formatter never returns the empty string: a page always shows a time. *)
Theorem time_string_never_empty (opts : FormatOpts) :
  (forall l h z t, format_hour_minute P l h z t <> "") ->
  exists s, formatMeetingTime P opts = ret s /\ s <> "".
Proof.
  intros Hfmt. unfold formatMeetingTime.
  destruct (fo_meetingTimeText opts) as [[|c t]|];
    try (eexists; split; [reflexivity | discriminate]);
    (destruct (fo_meetingDate opts) as [d|];
     [|eexists; split; [reflexivity | discriminate]];
     destruct (truthy_datelike d); cbn [negb];
     [|eexists; split; [reflexivity | discriminate]];
     destruct (new_DateTimeFormat P _ _ _) as [e|f]; cbn [bind try_catch];
     [eexists; split; [reflexivity | discriminate]|];
     unfold format; destruct (time_value (new_Date P d)); cbn [try_catch throw ret];
     eexists; (split; [reflexivity|]); [apply Hfmt | discriminate]).
Qed.

End PageDetails.

(** ** The palette *)

Section Theming.
Import JS Host VDom MeetingBanner Reading.

Variable P : Platform.

(** X16. The palette is presentation only: with any other palette the page
    has the same texts, the same controls, the same image, a route link
    with the same address and a frame with the same address. *)
Theorem palette_is_presentational
    (props : MeetingBannerProps) (pal : option Palette) (lang : Lang) :
  exists tree tree',
    MeetingBanner.MeetingBanner P props lang = ret tree
    /\ MeetingBanner.MeetingBanner P (set_palette pal props) lang = ret tree'
    /\ texts tree' = texts tree
    /\ handlers tree' = handlers tree
    /\ images tree' = images tree
    /\ map (attr "href") (links tree') = map (attr "href") (links tree)
    /\ map (attr "src") (frames tree') = map (attr "src") (frames tree).
Proof.
  destruct (MeetingBanner_renders P props lang) as (ts & Hts & Hr).
  destruct (MeetingBanner_renders P (set_palette pal props) lang) as (ts' & Hts' & Hr').
  assert (Hsame : timeString P (set_palette pal props) lang = timeString P props lang)
    by reflexivity.
  assert (ts' = ts) as -> by (rewrite Hsame, Hts in Hts'; now injection Hts').
  exists (view props lang ts), (view (set_palette pal props) lang ts).
  split; [exact Hr|]. split; [exact Hr'|].
  unfold images.
  rewrite !texts_view, !handlers_view, !select_img_view, !links_view, !frames_view.
  cbn [set_palette brandName locationLabel showMap googleMapsApiKey showLanguageToggle
       logoSrc origin destination openInNewTab palette].
  repeat split.
  destruct (dflt true (showMap props) && negb (truthy_opt (googleMapsApiKey props)));
    reflexivity.
Qed.

End Theming.

(** ** Further runs on the sample platform *)

Section FurtherRuns.
Import JS Host VDom MeetingBanner Terms Reading SamplePlatform.

Lemma start_route_read_back_witness :
  decoded_params (wo_url (start_route no_props Refused)) =
  [ ("api", Some "1"); ("origin", Some "Current+Location");
    ("destination", Some "Muelle Público, Puerto Jiménez, Puntarenas, Costa Rica");
    ("travelmode", Some "walking") ]
  /\ decoded_params (wo_url (start_route no_props (Located "8.5375" "-83.3012"))) =
     [ ("api", Some "1"); ("origin", Some "8.5375,-83.3012");
       ("destination", Some "Muelle Público, Puerto Jiménez, Puntarenas, Costa Rica");
       ("travelmode", Some "walking") ].
Proof.
  split.
  - apply (proj1 (start_route_read_back no_props) Refused). now left.
  - apply (proj2 (start_route_read_back no_props) "8.5375" "-83.3012"); reflexivity.
Defined.

Lemma language_reachability_witness :
  fst (click (set_showLanguageToggle (Some false) scenario_props) Refused StartRoute es) = es
  /\ reachable sample scenario_props en.
Proof.
  split.
  - apply (proj1 (language_reachability sample
                    (set_showLanguageToggle (Some false) scenario_props)) eq_refl).
    apply (reach_click sample (set_showLanguageToggle (Some false) scenario_props) es
             (view (set_showLanguageToggle (Some false) scenario_props) es "5:30 PM")
             StartRoute Refused).
    + exact (reach_initial sample (set_showLanguageToggle (Some false) scenario_props)).
    + reflexivity.
    + rewrite handlers_view. now left.
  - apply (proj2 (language_reachability sample scenario_props) eq_refl).
Defined.

Lemma default_policy_mentions_heading_time_witness :
  exists tree ts first second third,
    MeetingBanner.MeetingBanner sample scenario_props en = ret tree
    /\ heading_text tree = [title scenario_props en ++ ": " ++ ts]
    /\ shown_policy_lines tree = [first; second; third]
    /\ includes first ts = true.
Proof.
  apply (default_policy_mentions_heading_time sample scenario_props en). now left.
Defined.

Lemma title_override_in_both_languages_witness :
  exists tree ts,
    MeetingBanner.MeetingBanner sample (set_titleText (Some "Salida") scenario_props) en
    = ret tree
    /\ timeString sample (set_titleText (Some "Salida") scenario_props) en = ret ts
    /\ heading_text tree = ["Salida" ++ ": " ++ ts].
Proof.
  apply (title_override_in_both_languages sample
           (set_titleText (Some "Salida") scenario_props) "Salida" en);
    [reflexivity | discriminate].
Defined.

Lemma first_render_locale_witness :
  effectiveLocale (set_locale (Some "es-MX") no_props)
    (initial_lang (set_locale (Some "es-MX") no_props)) = "es-ES"
  /\ effectiveLocale (set_locale (Some "fr-FR") no_props)
       (initial_lang (set_locale (Some "fr-FR") no_props)) = "fr-FR"
  /\ effectiveLocale no_props (initial_lang no_props) = "en-US".
Proof.
  split; [|split].
  - apply (proj1 (first_render_locale (set_locale (Some "es-MX") no_props)) "es-MX");
      [reflexivity|].
    exists "e"%char, "s"%char, "-MX". repeat split; now left.
  - apply (proj1 (proj2 (first_render_locale (set_locale (Some "fr-FR") no_props))) "fr-FR");
      [reflexivity | | discriminate].
    intros (c1 & c2 & rest & Heq & [H1|H1] & _); now rewrite H1 in Heq.
  - apply (proj2 (proj2 (first_render_locale no_props))). reflexivity.
Defined.

Lemma render_without_platform_witness :
  MeetingBanner.MeetingBanner sample scenario_props es
  = MeetingBanner.MeetingBanner
      {| Date_parse := fun _ => None; valid_locale := fun _ => false;
         valid_timeZone := fun _ => false;
         format_hour_minute := fun _ _ _ _ => "" |} scenario_props es
  /\ timeString sample scenario_props es = ret "5:30 PM".
Proof.
  apply (render_without_platform sample scenario_props es). now left.
Defined.

Lemma sample_format_not_empty (l : option string) (h : option bool) (z : option string) (t : Z) :
  sample_format l h z t <> "".
Proof.
  unfold sample_format, decimal_hour, two_digits, digit.
  repeat match goal with
         | |- context [if ?b then _ else _] => destruct b
         end; discriminate.
Qed.

Lemma time_string_never_empty_witness :
  exists s,
    formatMeetingTime sample
      {| fo_meetingTimeText := None;
         fo_meetingDate := Some (OfString "1970-01-01T09:05:00.000Z");
         fo_locale := Some "en-US"; fo_timeZone := Some "UTC"; fo_hour12 := None |}
    = ret s /\ s <> "".
Proof.
  apply (time_string_never_empty sample). exact sample_format_not_empty.
Defined.

End FurtherRuns.
